(** * HEX-LoadBench: load generator, execution coordinator, execution registry

    A shallow embedding of [runner/python-runner/load_runner.py] and
    [runner/test_executor.py], followed by the properties established
    about them.

    Conventions of the embedding.
    - Python [int] is [Z]; a [float] (clock reading, latency, statistic) is
      the rational it denotes ([Q]) and the arithmetic on it is exact; the
      one place where the rounding of double precision could change a
      result, the truncated percentile index, is compared with IEEE
      arithmetic in [Binary64]. [str] is [string] (ASCII), [Dict[int, int]]
      is [gmap Z Z], [Dict[str, TestExecutor]] is
      [gmap string TestExecutor].
    - Mutation of [self] is explicit state passing: a method takes the
      object and returns the updated object next to its result.
    - Whatever the code obtains from outside (clock readings, the answer of
      the network, the behaviour of the k6 process, the files it leaves,
      the uuid) is an explicit argument.
    - A raised exception is a value of type [exn]; [is_Exception] tells the
      subclasses of [Exception] from those that only derive from
      [BaseException] ([asyncio.CancelledError] since Python 3.8). *)

From Stdlib Require Import Ascii String QArith Qround Sorted SpecFloat Lqa.
From stdpp Require Import gmap strings list fin_maps pretty.

Local Open Scope Z_scope.

(** ** Exceptions and outcomes *)

Inductive exn : Type :=
  | ValueError (msg : string)
  | RequestError (msg : string)      (* httpx.RequestError and subclasses *)
  | OtherException (msg : string)    (* any other subclass of Exception *)
  | CancelledError.                  (* BaseException only *)

Definition is_Exception (e : exn) : bool :=
  match e with
  | CancelledError => false
  | _ => true
  end.

(** [str(e)] *)
Definition str_exn (e : exn) : string :=
  match e with
  | ValueError m | RequestError m | OtherException m => m
  | CancelledError => ""
  end.

(** What a call evaluates to: a returned value or a raised exception. *)
Inductive outcome (A : Type) : Type :=
  | Return (a : A)
  | Raise (e : exn).
Arguments Return {A} a.
Arguments Raise {A} e.

(** ** Strings *)

Definition upper_ascii (c : ascii) : ascii :=
  let n := nat_of_ascii c in
  if (Nat.leb 97 n && Nat.leb n 122)%bool then ascii_of_nat (n - 32) else c.

(** [str.upper()] on ASCII text. *)
Fixpoint upper (s : string) : string :=
  match s with
  | EmptyString => EmptyString
  | String c s' => String (upper_ascii c) (upper s')
  end.

(** [s[:n]] *)
Definition str_prefix (n : nat) (s : string) : string := substring 0 n s.

(** ** Rationals as floats *)

Definition Qltb (x y : Q) : bool := negb (Qle_bool y x).

Module Runner.

(** *** load_runner.py: data model *)

Record LoadTestConfig : Type := mkLoadTestConfig {
  target_url : string;
  method : string;
  headers : gmap string string;
  body : string;
  auth_token : string;
  concurrent_users : Z;
  duration : Z;
  max_rps : Z;
  timeout : Z
}.

(** The write of [__post_init__] into the dictionary of headers: a
    configured token becomes its ["Authorization"] entry, in place. *)
Definition write_token (hs : gmap string string) (tok : string)
    : gmap string string :=
  if String.eqb tok "" then hs
  else <["Authorization" := "Bearer " +:+ tok]> hs.

(** The dataclass constructor followed by [__post_init__]. When the caller
    passes a dictionary, the configuration keeps that very dictionary and
    [__post_init__] writes into it: the [headers] of the result is the
    state of the caller's dictionary after the call, and whoever holds that
    dictionary sees the write (the callers of this function carry it back,
    see [Executor.sees_write]). Without a dictionary a fresh one is
    made. *)
Definition new_LoadTestConfig (url m : string) (hs : option (gmap string string))
    (b tok : string) (users dur rps tmo : Z) : LoadTestConfig :=
  mkLoadTestConfig url m (write_token (default ∅ hs) tok) b tok users dur rps tmo.

Record TestMetrics : Type := mkTestMetrics {
  total_requests : Z;
  successful_requests : Z;
  failed_requests : Z;
  response_times : list Q;
  status_codes : gmap Z Z;
  errors : list string;
  start_time : option Q;
  end_time : option Q
}.

(** [TestMetrics()] *)
Definition new_TestMetrics : TestMetrics :=
  mkTestMetrics 0 0 0 [] ∅ [] None None.

Record LoadRunner : Type := mkLoadRunner {
  config : LoadTestConfig;
  metrics : TestMetrics;
  running : bool;
  request_interval : Q;
  last_request_time : Q
}.

(** [LoadRunner.__init__] *)
Definition new_LoadRunner (cfg : LoadTestConfig) : LoadRunner :=
  mkLoadRunner cfg new_TestMetrics false
    (if 0 <? max_rps cfg then (1 / inject_Z (max_rps cfg))%Q else (1 # 10)%Q)
    0%Q.

Definition set_metrics (r : LoadRunner) (m : TestMetrics) : LoadRunner :=
  mkLoadRunner (config r) m (running r) (request_interval r) (last_request_time r).

Definition set_running (r : LoadRunner) (b : bool) : LoadRunner :=
  mkLoadRunner (config r) (metrics r) b (request_interval r) (last_request_time r).

Definition set_last_request_time (r : LoadRunner) (t : Q) : LoadRunner :=
  mkLoadRunner (config r) (metrics r) (running r) (request_interval r) t.

(** *** make_request *)

(** The five branches of the [if]/[elif] chain that issue a request. *)
Inductive verb : Type := GET | POST | PUT | DELETE | PATCH.

(** The chain itself: [None] is the final [else], which raises. *)
Definition dispatch (m : string) : option verb :=
  let u := upper m in
  if String.eqb u "GET" then Some GET
  else if String.eqb u "POST" then Some POST
  else if String.eqb u "PUT" then Some PUT
  else if String.eqb u "DELETE" then Some DELETE
  else if String.eqb u "PATCH" then Some PATCH
  else None.

(** What [await self.client.<verb>(...)] does. *)
Inductive net_outcome : Type :=
  | NetResponse (status_code : Z) (text : string)
  | NetRaises (e : exn).

(** The successive readings of [time.time()] during one call. *)
Record Clock : Type := mkClock {
  t_start : Q;     (* start_time = time.time() *)
  t_check : Q;     (* current_time = time.time() *)
  t_done : Q;      (* the reading in response_time = (time.time() - start_time) * 1000 *)
  t_stamp : Q      (* self.last_request_time = time.time() *)
}.

(** The dictionaries returned by [make_request]. *)
Inductive request_result : Type :=
  | ResponseResult (success : bool) (status_code : Z) (response_time : Q)
      (response_text : string)
  | ErrorResult (error : string) (response_time : Q).

Definition result_success (x : request_result) : bool :=
  match x with
  | ResponseResult s _ _ _ => s
  | ErrorResult _ _ => false
  end.

(** The rate-limiting prologue: the argument of [asyncio.sleep], if any. *)
Definition rate_limit_delay (r : LoadRunner) (current_time : Q) : option Q :=
  let time_since_last := (current_time - last_request_time r)%Q in
  if Qltb time_since_last (request_interval r)
  then Some (request_interval r - time_since_last)%Q
  else None.

Definition is_2xx (status_code : Z) : bool :=
  (200 <=? status_code) && (status_code <? 300).

(** The bookkeeping of the [try] body after a response has arrived. *)
Definition record_response (m : TestMetrics) (status_code : Z) (text : string)
    (response_time : Q) : TestMetrics :=
  let codes := <[status_code := default 0 (status_codes m !! status_code) + 1]>
                 (status_codes m) in
  if is_2xx status_code then
    mkTestMetrics (total_requests m + 1) (successful_requests m + 1)
      (failed_requests m) (response_times m ++ [response_time]) codes
      (errors m) (start_time m) (end_time m)
  else
    mkTestMetrics (total_requests m + 1) (successful_requests m)
      (failed_requests m + 1) (response_times m ++ [response_time]) codes
      (errors m ++ ["HTTP " +:+ pretty status_code +:+ ": " +:+ str_prefix 100 text])
      (start_time m) (end_time m).

(** The bookkeeping of the [except httpx.RequestError] handler. *)
Definition record_request_error (m : TestMetrics) (msg : string)
    (response_time : Q) : TestMetrics :=
  mkTestMetrics (total_requests m + 1) (successful_requests m)
    (failed_requests m + 1) (response_times m ++ [response_time])
    (status_codes m)
    (errors m ++ ["Request error: " +:+ msg])
    (start_time m) (end_time m).

Definition make_request (r : LoadRunner) (clk : Clock) (net : net_outcome)
    : LoadRunner * outcome request_result :=
  let start := t_start clk in
  let _slept := rate_limit_delay r (t_check clk) in
  match dispatch (method (config r)) with
  | None =>
      (r, Raise (ValueError ("Unsupported HTTP method: " +:+ method (config r))))
  | Some _ =>
      match net with
      | NetResponse status_code text =>
          let response_time := ((t_done clk - start) * 1000)%Q in
          let m := record_response (metrics r) status_code text response_time in
          let success := is_2xx status_code in
          (set_last_request_time (set_metrics r m) (t_stamp clk),
           Return (ResponseResult success status_code response_time
                     (if success then "" else str_prefix 100 text)))
      | NetRaises (RequestError msg) =>
          let response_time := ((t_done clk - start) * 1000)%Q in
          (set_metrics r (record_request_error (metrics r) msg response_time),
           Return (ErrorResult msg response_time))
      | NetRaises e => (r, Raise e)
      end
  end.

(** *** run_user_simulation *)

(** A virtual-user task: inside its [while] loop with the deadline it
    computed on entry, returned, or ended by an exception. *)
Inductive task_state : Type :=
  | Looping (deadline : Q)
  | Finished
  | Failed (e : exn).

Definition task_done (t : task_state) : bool :=
  match t with
  | Looping _ => false
  | _ => true
  end.

(** One evaluation of the loop condition
    [self.running and time.time() < end_time], reading [now], followed by
    the loop body when it holds. An exception leaving [make_request] ends
    the task. *)
Definition user_iteration (r : LoadRunner) (deadline now : Q) (clk : Clock)
    (net : net_outcome) : LoadRunner * task_state :=
  if running r && Qltb now deadline then
    match make_request r clk net with
    | (r', Return _) => (r', Looping deadline)
    | (r', Raise e) => (r', Failed e)
    end
  else (r, Finished).

(** *** run_test *)

(** The event loop gives the turn to one virtual user at a time; the
    mutations of one [make_request] happen between two suspension points,
    so one turn of one user is one step: the loop condition and, when it
    holds, the call that completes. What the call reads before it suspends
    is the [running] flag, which no turn changes, and the stamp, which only
    decides how long it sleeps. *)
Record loop_event : Type := mkEvent {
  ev_user : nat;
  ev_now : Q;
  ev_clock : Clock;
  ev_net : net_outcome
}.

Definition sched_step (st : LoadRunner * list task_state) (ev : loop_event)
    : LoadRunner * list task_state :=
  match st.2 !! ev_user ev with
  | Some (Looping deadline) =>
      let '(r', t') :=
        user_iteration st.1 deadline (ev_now ev) (ev_clock ev) (ev_net ev) in
      (r', <[ev_user ev := t']> st.2)
  | _ => st
  end.

Record run_env : Type := mkRunEnv {
  run_started : Q;             (* datetime.utcnow() before the try *)
  user_started : nat -> Q;     (* time.time() read by each user on entry *)
  schedule : list loop_event;  (* the turns taken while gather is awaited *)
  interrupt : option exn;      (* an exception raised out of the try body *)
  run_ended : Q                (* datetime.utcnow() in the finally *)
}.

(** [create_task] for [user_id in range(concurrent_users)]. *)
Definition spawn_users (r : LoadRunner) (env : run_env) : list task_state :=
  (λ u, Looping (user_started env u + inject_Z (duration (config r)))%Q)
    <$> seq 0 (Z.to_nat (concurrent_users (config r))).

Definition set_start_time (m : TestMetrics) (t : Q) : TestMetrics :=
  mkTestMetrics (total_requests m) (successful_requests m) (failed_requests m)
    (response_times m) (status_codes m) (errors m) (Some t) (end_time m).

Definition set_end_time (m : TestMetrics) (t : Q) : TestMetrics :=
  mkTestMetrics (total_requests m) (successful_requests m) (failed_requests m)
    (response_times m) (status_codes m) (errors m) (start_time m) (Some t).

Definition add_error (m : TestMetrics) (msg : string) : TestMetrics :=
  mkTestMetrics (total_requests m) (successful_requests m) (failed_requests m)
    (response_times m) (status_codes m) (errors m ++ [msg]) (start_time m)
    (end_time m).

(** The [finally] block. *)
Definition run_finally (r : LoadRunner) (env : run_env) : LoadRunner :=
  set_metrics (set_running r false) (set_end_time (metrics r) (run_ended env)).

(** The statements before the [try]. *)
Definition run_begin (r : LoadRunner) (env : run_env) : LoadRunner :=
  set_metrics (set_running r true) (set_start_time (metrics r) (run_started env)).

(** The runner and the tasks once every turn of [schedule] has been taken. *)
Definition run_gather (r : LoadRunner) (env : run_env)
    : LoadRunner * list task_state :=
  foldl sched_step (run_begin r env, spawn_users (run_begin r env) env)
    (schedule env).

(** [None]: every turn of [schedule] has been taken, some task is still in
    its loop and nothing interrupts; [gather] is still being awaited. The
    results that [gather] collects are dropped. *)
Definition run_test (r : LoadRunner) (env : run_env)
    : option (LoadRunner * outcome TestMetrics) :=
  let st := run_gather r env in
  match interrupt env with
  | None =>
      if forallb task_done st.2 then
        let r3 := run_finally st.1 env in
        Some (r3, Return (metrics r3))
      else None
  | Some e =>
      if is_Exception e then
        let r2 := set_metrics st.1
                    (add_error (metrics st.1) ("Test error: " +:+ str_exn e)) in
        let r3 := run_finally r2 env in
        Some (r3, Return (metrics r3))
      else Some (run_finally st.1 env, Raise e)
  end.

(** *** generate_report *)

(** [round(x)] to an integer, ties to even. *)
Definition round_half_even (q : Q) : Z :=
  let f := Qfloor q in
  match (q - inject_Z f ?= 1 # 2)%Q with
  | Lt => f
  | Gt => f + 1
  | Eq => if Z.even f then f else f + 1
  end.

(** [round(x, 2)] *)
Definition round2 (q : Q) : Q := Qmake (round_half_even (q * 100)) 100.

(** [int(x)]: truncation towards zero. *)
Definition py_int (q : Q) : Z := if Qle_bool 0 q then Qfloor q else Qceiling q.

(** [statistics.mean] of a non-empty list (exact sum, then one division). *)
Definition mean (l : list Q) : Q :=
  (foldr Qplus 0 l / inject_Z (Z.of_nat (length l)))%Q.

(** [min] and [max] of [x :: l]: the first smallest, the first largest. *)
Definition py_min (x : Q) (l : list Q) : Q :=
  foldl (λ cur y, if Qltb y cur then y else cur) x l.

Definition py_max (x : Q) (l : list Q) : Q :=
  foldl (λ cur y, if Qltb cur y then y else cur) x l.

Fixpoint insert_sorted (x : Q) (l : list Q) : list Q :=
  match l with
  | [] => [x]
  | y :: l' => if Qle_bool x y then x :: l else y :: insert_sorted x l'
  end.

(** [sorted]: a stable ascending sort. *)
Definition sorted (l : list Q) : list Q := foldr insert_sorted [] l.

(** [int(len(sorted_times) * p)] *)
Definition pct_index (n : nat) (p : Q) : nat :=
  Z.to_nat (py_int (inject_Z (Z.of_nat n) * p)).

Module Report.

Record TestConfig : Type := mkTestConfig {
  target_url : string;
  method : string;
  concurrent_users : Z;
  duration : Z;
  max_rps : Z
}.

Record Execution : Type := mkExecution {
  start_time : option Q;
  end_time : option Q;
  duration_seconds : Q
}.

Record Metrics : Type := mkMetrics {
  total_requests : Z;
  successful_requests : Z;
  failed_requests : Z;
  error_rate_percent : Q;
  throughput_rps : Q
}.

Record ResponseTimes : Type := mkResponseTimes {
  average_ms : Q;
  minimum_ms : Q;
  maximum_ms : Q;
  p50_ms : Q;
  p95_ms : Q;
  p99_ms : Q
}.

Record t : Type := mkReport {
  test_config : TestConfig;
  execution : Execution;
  metrics : Metrics;
  response_times : ResponseTimes;
  status_codes : gmap Z Z;
  errors : list string;
  errors_count : nat
}.

End Report.

(** The two shapes of the returned dictionary. *)
Inductive report_result : Type :=
  | ReportError (error : string)
  | ReportOk (rep : Report.t).

(** [l[i]] for [0 <= i]: [IndexError] when out of range. *)
Definition index (l : list Q) (i : nat) : outcome Q :=
  match l !! i with
  | Some x => Return x
  | None => Raise (OtherException "list index out of range")
  end.

Definition bind {A B : Type} (x : outcome A) (k : A -> outcome B) : outcome B :=
  match x with
  | Return a => k a
  | Raise e => Raise e
  end.

Definition generate_report (r : LoadRunner) : outcome report_result :=
  let m := metrics r in
  match response_times m with
  | [] => Return (ReportError "No metrics collected")
  | x :: l =>
      let avg_response_time := mean (x :: l) in
      let min_response_time := py_min x l in
      let max_response_time := py_max x l in
      let sorted_times := sorted (x :: l) in
      bind (index sorted_times (pct_index (length sorted_times) (1 # 2))) (λ p50,
      bind (index sorted_times (pct_index (length sorted_times) (95 # 100))) (λ p95,
      bind (index sorted_times (pct_index (length sorted_times) (99 # 100))) (λ p99,
      let duration_seconds :=
        match start_time m, end_time m with
        | Some s, Some e => (e - s)%Q
        | _, _ => 0%Q
        end in
      let throughput :=
        if Qltb 0 duration_seconds
        then (inject_Z (total_requests m) / duration_seconds)%Q
        else 0%Q in
      let error_rate :=
        if 0 <? total_requests m
        then (inject_Z (failed_requests m) / inject_Z (total_requests m) * 100)%Q
        else 0%Q in
      Return (ReportOk
        (Report.mkReport
           (Report.mkTestConfig (target_url (config r)) (method (config r))
              (concurrent_users (config r)) (duration (config r))
              (max_rps (config r)))
           (Report.mkExecution (start_time m) (end_time m) duration_seconds)
           (Report.mkMetrics (total_requests m) (successful_requests m)
              (failed_requests m) (round2 error_rate) (round2 throughput))
           (Report.mkResponseTimes (round2 avg_response_time)
              (round2 min_response_time) (round2 max_response_time)
              (round2 p50) (round2 p95) (round2 p99))
           (status_codes m)
           (take 10 (errors m))
           (length (errors m)))))))
  end.

End Runner.

Module Binary64.

(** *** The index computation in IEEE 754 double precision

    [int(len(sorted_times) * 0.95)] as the interpreter evaluates it: the
    length converted to a double, one correctly rounded multiplication by
    the double nearest to the literal, truncation. [Runner.pct_index] is
    the same computation over the rationals. *)

Definition mul : spec_float → spec_float → spec_float := SFmul 53 1024.

Definition of_nat (n : nat) : spec_float :=
  match Z.of_nat n with
  | Z.pos p => S754_finite false p 0
  | _ => S754_zero false
  end.

(** [int(x)] *)
Definition to_int (x : spec_float) : Z :=
  match x with
  | S754_finite s m e =>
      let a := if 0 <=? e then Z.pos m * 2 ^ e else Z.pos m / 2 ^ (- e) in
      if s then - a else a
  | _ => 0
  end.

(** The literals [0.5], [0.95] and [0.99]:
    [0x1.0p-1], [0x1.e666666666666p-1], [0x1.fae147ae147aep-1]. *)
Definition lit_0_5 : spec_float := S754_finite false 4503599627370496 (-53).
Definition lit_0_95 : spec_float := S754_finite false 8556839292003942 (-53).
Definition lit_0_99 : spec_float := S754_finite false 8917127262193582 (-53).

Definition pct_index (n : nat) (p : spec_float) : nat :=
  Z.to_nat (to_int (mul (of_nat n) p)).

Definition agrees (n : nat) : bool :=
  (to_int (mul (of_nat n) lit_0_5)
   =? Runner.py_int (inject_Z (Z.of_nat n) * (1 # 2)))
  && (to_int (mul (of_nat n) lit_0_95)
      =? Runner.py_int (inject_Z (Z.of_nat n) * (95 # 100)))
  && (to_int (mul (of_nat n) lit_0_99)
      =? Runner.py_int (inject_Z (Z.of_nat n) * (99 # 100))).

End Binary64.

Module Executor.

(** *** test_executor.py: the child process *)

Inductive signal : Type := SIGTERM | SIGKILL.

Definition signal_eqb (a b : signal) : bool :=
  match a, b with
  | SIGTERM, SIGTERM | SIGKILL, SIGKILL => true
  | _, _ => false
  end.

(** What the launched program does, fixed from outside: after how many
    seconds it exits by itself (if ever) and with what, and whether it exits
    within the grace period once it has received SIGTERM. *)
Record child : Type := mkChild {
  lifetime : option Q;
  exit_code : Z;
  out : string;
  err : string;
  obeys_sigterm : bool
}.

(** A [subprocess.Popen] object. [returncode] is [None] until the child has
    been reaped; [signals] lists what has been sent to it, oldest first. *)
Record Popen : Type := mkPopen {
  behaviour : child;
  returncode : option Z;
  signals : list signal
}.

Definition spawn (c : child) : Popen := mkPopen c None [].

Definition send (sig : signal) (p : Popen) : Popen :=
  match returncode p with
  | Some _ => p
  | None => mkPopen (behaviour p) None (signals p ++ [sig])
  end.

(** [Popen.terminate] and [Popen.kill] *)
Definition terminate : Popen -> Popen := send SIGTERM.
Definition kill : Popen -> Popen := send SIGKILL.

Definition reap (p : Popen) (rc : Z) : Popen :=
  mkPopen (behaviour p) (Some rc) (signals p).

Definition sent (sig : signal) (p : Popen) : bool :=
  existsb (signal_eqb sig) (signals p).

(** How a signalled child ends: SIGKILL cannot be ignored, SIGTERM ends a
    child that honours it. *)
Definition dies (p : Popen) : option Z :=
  if sent SIGKILL p then Some (-9)
  else if sent SIGTERM p && obeys_sigterm (behaviour p) then Some (-15)
  else None.

(** [Popen.wait(timeout=...)] on a child the parent has signalled or
    reaped: [None] stands for [TimeoutExpired]. *)
Definition wait_for (p : Popen) (timeout : Q) : option Popen :=
  match returncode p with
  | Some _ => Some p
  | None => reap p <$> dies p
  end.

(** [Popen.wait()]: [None] when the call never returns. *)
Definition wait (p : Popen) : option Popen :=
  match returncode p with
  | Some _ => Some p
  | None => reap p <$> dies p
  end.

(** [Popen.communicate(timeout)] on a child that has not been signalled:
    the reaped process with its return code and output, or [None] for
    [TimeoutExpired]. *)
Definition communicate (p : Popen) (timeout : Q)
    : option (Popen * Z * string * string) :=
  match lifetime (behaviour p) with
  | Some d =>
      if Qle_bool d timeout
      then Some (reap p (exit_code (behaviour p)), exit_code (behaviour p),
                 out (behaviour p), err (behaviour p))
      else None
  | None => None
  end.

Definition alive (p : Popen) : bool :=
  match returncode p with
  | None => true
  | Some _ => false
  end.

(** *** The configuration dictionary *)

(** [test_config: Dict[str, Any]]: a key is present or not. *)
Record test_config : Type := mkTestConfig {
  target_url : option string;
  method : option string;
  headers : option (gmap string string);
  body_template : option string;
  auth_token : option string;
  concurrent_users : option Z;
  duration : option Z;
  rps_limit : option Z;
  timeout : option Z;
  runner_type : option string;
  load_profile_type : option string
}.

(** *** Results *)

Inductive file_state (A : Type) : Type :=
  | Absent
  | Malformed      (* opening or parsing raises *)
  | Parsed (a : A).
Arguments Absent {A}.
Arguments Malformed {A}.
Arguments Parsed {A} a.

Record k6_results : Type := mkK6Results {
  summary : option string;
  detailed_metrics : option (list string)
}.

(** The dictionaries returned by the executor and by the manager, one
    constructor per shape. *)
Inductive result : Type :=
  | K6Success (execution_id : string) (results : k6_results) (stdout : string)
      (duration : option Z)
  | K6Failure (execution_id : string) (error : string) (stderr : string)
  | ExecFailure (execution_id : string) (error : string)
  | PythonSuccess (execution_id : string) (results : Runner.report_result)
      (total_requests successful_requests failed_requests : Z)
      (response_times : list Q)
  | PlainFailure (error : string)
  | AbortSuccess (message : string).

Definition success (x : result) : bool :=
  match x with
  | K6Success _ _ _ _ | PythonSuccess _ _ _ _ _ _ | AbortSuccess _ => true
  | _ => false
  end.

Definition error (x : result) : option string :=
  match x with
  | K6Failure _ e _ | ExecFailure _ e | PlainFailure e => Some e
  | _ => None
  end.

(** *** TestExecutor *)

Record TestExecutor : Type := mkTestExecutor {
  config : test_config;
  execution_id : string;
  is_running : bool;
  process : option Popen;
  metrics : list (string * string)
}.

(** [TestExecutor.__init__]; [uuid] is the value of [str(uuid.uuid4())]. *)
Definition new_TestExecutor (cfg : test_config) (uuid : string) : TestExecutor :=
  mkTestExecutor cfg uuid false None [].

Definition set_is_running (ex : TestExecutor) (b : bool) : TestExecutor :=
  mkTestExecutor (config ex) (execution_id ex) b (process ex) (metrics ex).

Definition set_process (ex : TestExecutor) (p : Popen) : TestExecutor :=
  mkTestExecutor (config ex) (execution_id ex) (is_running ex) (Some p) (metrics ex).

Definition _get_k6_script_path (profile_type : string) : option string :=
  if String.eqb profile_type "ramp_up" then Some "runner/k6-scripts/ramp-up-test.js"
  else if String.eqb profile_type "steady_state" then Some "runner/k6-scripts/basic-load-test.js"
  else if String.eqb profile_type "spike" then Some "runner/k6-scripts/spike-test.js"
  else if String.eqb profile_type "soak" then Some "runner/k6-scripts/soak-test.js"
  else None.

Definition _parse_k6_results (summary_json : file_state string)
    (results_json : file_state (list string)) : k6_results :=
  mkK6Results
    (match summary_json with Parsed v => Some v | _ => None end)
    (match results_json with Parsed ls => Some ls | _ => None end).

(** What [_run_k6_test] meets outside the interpreter. *)
Record k6_env : Type := mkK6Env {
  path_exists : string -> bool;        (* os.path.exists *)
  popen : outcome child;               (* subprocess.Popen(cmd, ...) *)
  summary_json : file_state string;
  results_json : file_state (list string)
}.

(** The timeout passed to [communicate]. *)
Definition effective_timeout (cfg : test_config) : Q :=
  inject_Z (default 3600 (timeout cfg)).

(** [_run_k6_test]. The command line and the environment variables built
    by [_prepare_k6_env] only reach [Popen], whose answer is an argument
    here; what is kept of [_prepare_k6_env] is the [KeyError] of a missing
    ["target_url"]. [None]: a wait never returned. *)
Definition _run_k6_test (ex : TestExecutor) (cfg : test_config) (env : k6_env)
    : option (TestExecutor * outcome result) :=
  let profile_type := default "steady_state" (load_profile_type cfg) in
  let script_path := _get_k6_script_path profile_type in
  if negb (match script_path with
           | Some path => path_exists env path
           | None => false
           end)
  then Some (ex, Raise (ValueError ("k6 script not found for profile: " +:+ profile_type)))
  else
    match target_url cfg with         (* _prepare_k6_env: test_config["target_url"] *)
    | None => Some (ex, Raise (OtherException "'target_url'"))
    | Some _ =>
        match popen env with
        | Raise e =>
            if is_Exception e
            then Some (ex, Return (ExecFailure (execution_id ex)
                                     ("k6 execution failed: " +:+ str_exn e)))
            else Some (ex, Raise e)
        | Return c =>
            let p := spawn c in
            match communicate p (effective_timeout cfg) with
            | Some (p', return_code, stdout, stderr) =>
                let ex' := set_process ex p' in
                if return_code =? 0
                then Some (ex', Return (K6Success (execution_id ex)
                                          (_parse_k6_results (summary_json env)
                                             (results_json env))
                                          stdout (duration cfg)))
                else Some (ex', Return (K6Failure (execution_id ex)
                                          ("k6 failed with return code "
                                             +:+ pretty return_code)
                                          stderr))
            | None =>                  (* except subprocess.TimeoutExpired *)
                let p1 := kill p in
                match wait p1 with
                | Some p2 =>
                    Some (set_process ex p2,
                          Return (ExecFailure (execution_id ex)
                                    "Test execution timed out"))
                | None => None
                end
            end
        end
    end.

(** What one execution meets: the k6 side and the in-process side. *)
Record exec_env : Type := mkExecEnv {
  k6 : k6_env;
  py : Runner.run_env
}.

Definition set_config (ex : TestExecutor) (cfg : test_config) : TestExecutor :=
  mkTestExecutor cfg (execution_id ex) (is_running ex) (process ex) (metrics ex).

Definition set_headers (cfg : test_config) (hs : gmap string string) : test_config :=
  mkTestConfig (target_url cfg) (method cfg) (Some hs) (body_template cfg)
    (auth_token cfg) (concurrent_users cfg) (duration cfg) (rps_limit cfg)
    (timeout cfg) (runner_type cfg) (load_profile_type cfg).

(** The [LoadTestConfig(...)] of [_run_python_test]. *)
Definition LoadTestConfig_of (cfg : test_config) (url : string)
    : Runner.LoadTestConfig :=
  Runner.new_LoadTestConfig url
    (default "GET" (method cfg))
    (Some (default ∅ (headers cfg)))
    (default "" (body_template cfg))
    (default "" (auth_token cfg))
    (default 10 (concurrent_users cfg))
    (default 60 (duration cfg))
    (default 100 (rps_limit cfg))
    (default 30 (timeout cfg)).

(** The executor once [LoadTestConfig(...)] has been built from
    [test_config]. The dictionary under ["headers"], when the key is there,
    is the one the [LoadTestConfig] keeps, so it holds what [__post_init__]
    wrote; the default [{}] of [.get] is a dictionary of its own.
    [self.config] is a reference to a dictionary: it shows the write when
    it holds that headers dictionary, as it does when the executor was
    built from [test_config] ([start_test] builds it so). Dictionaries are
    identified with their content: the executor holds the headers
    dictionary of [test_config] when the headers of its [config] equal
    it. *)
Definition sees_write (ex : TestExecutor) (cfg : test_config)
    (python_config : Runner.LoadTestConfig) : TestExecutor :=
  match headers cfg with
  | Some h =>
      if decide (headers (config ex) = Some h)
      then set_config ex (set_headers (config ex) (Runner.headers python_config))
      else ex
  | None => ex
  end.

Definition _run_python_test (ex : TestExecutor) (cfg : test_config)
    (env : Runner.run_env) : option (TestExecutor * outcome result) :=
  match target_url cfg with
  | None => Some (ex, Raise (OtherException "'target_url'"))
  | Some url =>
      let python_config := LoadTestConfig_of cfg url in
      let ex := sees_write ex cfg python_config in
      match Runner.run_test (Runner.new_LoadRunner python_config) env with
      | None => None
      | Some (_, Raise e) => Some (ex, Raise e)
      | Some (runner, Return m) =>
          match Runner.generate_report runner with
          | Raise e => Some (ex, Raise e)
          | Return report =>
              Some (ex, Return (PythonSuccess (execution_id ex) report
                                  (Runner.total_requests m)
                                  (Runner.successful_requests m)
                                  (Runner.failed_requests m)
                                  (Runner.response_times m)))
          end
      end
  end.

(** The backend choice of [execute_test]. *)
Definition uses_python_runner (cfg : test_config) : bool :=
  match runner_type cfg with
  | Some t => String.eqb t "python"
  | None => false
  end || (default 0 (concurrent_users cfg) <? 1000).

Definition execute_test (ex : TestExecutor) (cfg : test_config) (env : exec_env)
    : option (TestExecutor * outcome result) :=
  let ex1 := set_is_running ex true in
  match (if uses_python_runner cfg
         then _run_python_test ex1 cfg (py env)
         else _run_k6_test ex1 cfg (k6 env)) with
  | None => None
  | Some (ex2, Return x) => Some (set_is_running ex2 false, Return x)
  | Some (ex2, Raise e) =>
      if is_Exception e
      then Some (set_is_running ex2 false,
                 Return (ExecFailure (execution_id ex) (str_exn e)))
      else Some (set_is_running ex2 false, Raise e)
  end.

(** [TestExecutor.abort_test]; [None] only if a wait never returned.
    [os_error] is what the operating system answers when [terminate] asks
    it to signal a child that has not been reaped: nothing, or an [OSError]
    with the given message, which the last handler turns into a failure
    (on a reaped child [terminate] asks nothing). *)
Definition abort_test (ex : TestExecutor) (os_error : option string)
    : option (TestExecutor * result) :=
  if negb (is_running ex)
  then Some (ex, PlainFailure "No test is currently running")
  else
    match process ex with
    | Some p =>
        match (if alive p then os_error else None) with
        | Some msg =>                  (* except Exception as e *)
            Some (ex, PlainFailure ("Failed to abort test: " +:+ msg))
        | None =>
            let p1 := terminate p in
            match wait_for p1 10 with
            | Some p2 =>
                Some (set_process ex p2, AbortSuccess "Test aborted successfully")
            | None =>                  (* except subprocess.TimeoutExpired *)
                let p2 := kill p1 in
                match wait p2 with
                | Some p3 =>
                    Some (set_process ex p3,
                          AbortSuccess "Test forcefully terminated")
                | None => None
                end
            end
        end
    | None => Some (ex, PlainFailure "No process to abort")
    end.

End Executor.

Module Manager.

Import Executor.

(** *** TestExecutionManager *)

Record TestExecutionManager : Type := mkManager {
  active_tests : gmap string TestExecutor;
  max_concurrent_tests : nat
}.

(** [TestExecutionManager.__init__] *)
Definition new_TestExecutionManager : TestExecutionManager := mkManager ∅ 5.

Definition set_active_tests (mgr : TestExecutionManager)
    (a : gmap string TestExecutor) : TestExecutionManager :=
  mkManager a (max_concurrent_tests mgr).

(** [if id in self.active_tests: del self.active_tests[id]] *)
Definition clean_up (execution_id : string) (a : gmap string TestExecutor)
    : gmap string TestExecutor :=
  match a !! execution_id with
  | Some _ => delete execution_id a
  | None => a
  end.

(** [start_test]. [uuid] is the identifier drawn for the new executor. The
    registry holds the executor object itself, so an entry that is still
    there when the call is left shows the executor as [execute_test] left
    it. *)
Definition start_test (mgr : TestExecutionManager) (cfg : test_config)
    (uuid : string) (env : exec_env)
    : option (TestExecutionManager * outcome result) :=
  if Nat.leb (max_concurrent_tests mgr) (size (active_tests mgr))
  then Some (mgr, Return (PlainFailure
               ("Maximum concurrent tests (" +:+ pretty (max_concurrent_tests mgr)
                  +:+ ") reached")))
  else
    let executor := new_TestExecutor cfg uuid in
    let registered := <[execution_id executor := executor]> (active_tests mgr) in
    match execute_test executor cfg env with
    | None => None
    | Some (executor', Return results) =>
        Some (set_active_tests mgr (clean_up (execution_id executor) registered),
              Return results)
    | Some (executor', Raise e) =>
        if is_Exception e
        then Some (set_active_tests mgr (clean_up (execution_id executor) registered),
                   Return (PlainFailure ("Test execution failed: " +:+ str_exn e)))
        else Some (set_active_tests mgr
                     (<[execution_id executor := executor']> registered),
                   Raise e)
    end.

(** [TestExecutionManager.abort_test]; [os_error] as for the executor. *)
Definition abort_test (mgr : TestExecutionManager) (execution_id : string)
    (os_error : option string) : option (TestExecutionManager * result) :=
  match active_tests mgr !! execution_id with
  | None => Some (mgr, PlainFailure "Test execution not found")
  | Some executor =>
      match Executor.abort_test executor os_error with
      | None => None
      | Some (_, x) =>
          Some (set_active_tests mgr (delete execution_id (active_tests mgr)), x)
      end
  end.

(** [get_active_tests] *)
Definition get_active_tests (mgr : TestExecutionManager) : gmap string string :=
  (λ executor, if is_running executor then "running" else "completed")
    <$> active_tests mgr.

End Manager.

Module Schemas.

(** *** backend/app/schemas/test.py: the validator of [method] *)

Definition allowed_methods : list string :=
  ["GET"; "POST"; "PUT"; "DELETE"; "PATCH"; "HEAD"; "OPTIONS"].

Definition validate_method (v : string) : outcome string :=
  if existsb (String.eqb (upper v)) allowed_methods
  then Return (upper v)
  else Raise (ValueError
         "Method must be one of: GET, POST, PUT, DELETE, PATCH, HEAD, OPTIONS").

End Schemas.

Module K6.

Import Executor.

(** *** test_executor.py: what is handed to k6, and what is read back *)

(** A value of [load_profile_config]; the schema layer declares them
    [Optional[int]]. *)
Inductive value : Type :=
  | VInt (z : Z)
  | VStr (s : string)
  | VNone.

(** [str(v)] *)
Definition str_value (v : value) : string :=
  match v with
  | VInt z => pretty z
  | VStr s => s
  | VNone => "None"
  end.

(** [str(d.get(key, fallback))] *)
Definition get_str (d : gmap string value) (key : string) (fallback : Z) : string :=
  str_value (default (VInt fallback) (d !! key)).

(** An entry of a dictionary read with [.get(key, {})]: the key is
    missing, or it holds [None], or it holds a dictionary. *)
Inductive stored (A : Type) : Type :=
  | Missing
  | StoredNone
  | Stored (a : A).
Arguments Missing {A}.
Arguments StoredNone {A}.
Arguments Stored {A} a.

(** [d.update(pairs)] *)
Definition update (pairs : list (string * string)) (d : gmap string string)
    : gmap string string :=
  foldl (λ acc kv, <[kv.1 := kv.2]> acc) d pairs.

Section PrepareEnv.

(** [json.dumps] on a dictionary of strings. *)
Variable json_dumps : gmap string string → string.

(** [_prepare_k6_env]. [profile_config] is the entry ["load_profile_config"]
    of the dictionary: missing, a stored [None] (which [.get] returns as it
    is, so that the profile branches call [.get] on [None]), or a
    dictionary. *)
Definition _prepare_k6_env (cfg : test_config)
    (profile_config : stored (gmap string value))
    : outcome (gmap string string) :=
  match target_url cfg with
  | None => Raise (OtherException "'target_url'")
  | Some url =>
      let env_vars : gmap string string :=
        update
          [ ("TARGET_URL", url);
            ("TARGET_METHOD", default "GET" (method cfg));
            ("TARGET_HEADERS", json_dumps (default ∅ (headers cfg)));
            ("TARGET_BODY", default "" (body_template cfg));
            ("AUTH_TOKEN", default "" (auth_token cfg));
            ("TEST_DURATION", pretty (default 600 (duration cfg)) +:+ "s");
            ("MAX_RPS", pretty (default 1000 (rps_limit cfg))) ] ∅ in
      let is_profile name :=
        match load_profile_type cfg with
        | Some t => String.eqb t name
        | None => false
        end in
      (* the first [profile_config.get(...)] of a profile branch *)
      let with_profile (k : gmap string value → gmap string string)
          : outcome (gmap string string) :=
        match profile_config with
        | Missing => Return (k ∅)
        | Stored pc => Return (k pc)
        | StoredNone =>
            Raise (OtherException "'NoneType' object has no attribute 'get'")
        end in
      if is_profile "ramp_up" then
        with_profile (λ pc,
          update
            [ ("INITIAL_USERS", get_str pc "initial_users" 1);
              ("TARGET_USERS", get_str pc "target_users" 100);
              ("RAMP_DURATION", get_str pc "ramp_duration" 300);
              ("HOLD_DURATION", get_str pc "hold_duration" 600) ] env_vars)
      else if is_profile "spike" then
        with_profile (λ pc,
          update
            [ ("BASELINE_USERS", get_str pc "baseline_users" 10);
              ("SPIKE_USERS", get_str pc "spike_users" 1000);
              ("SPIKE_DURATION", get_str pc "spike_duration" 60);
              ("BASELINE_DURATION", get_str pc "baseline_duration" 300) ] env_vars)
      else if is_profile "soak" then
        with_profile (λ pc,
          update
            [ ("CONCURRENT_USERS", get_str pc "concurrent_users" 50);
              ("SOAK_DURATION", pretty (default 86400 (duration cfg))) ] env_vars)
      else Return env_vars
  end.

End PrepareEnv.

(** One line of [results.json] as the loop of [_parse_k6_results] sees it:
    empty once stripped, accepted by [json.loads], or rejected by it. *)
Inductive line : Type :=
  | Blank
  | JsonLine (v : string)
  | BadLine.

(** The loop over the lines; [None] when [json.loads] raises. *)
Fixpoint parse_lines (ls : list line) : option (list string) :=
  match ls with
  | [] => Some []
  | Blank :: rest => parse_lines rest
  | JsonLine v :: rest => (v ::.) <$> parse_lines rest
  | BadLine :: _ => None
  end.

(** The second [try] of [_parse_k6_results] on the file, [None] when
    [os.path.exists] is false. *)
Definition read_results_json (file : option (list line)) : file_state (list string) :=
  match file with
  | None => Absent
  | Some ls =>
      match parse_lines ls with
      | Some ms => Parsed ms
      | None => Malformed
      end
  end.

End K6.

Import Runner.

(** * Vocabulary of the statements *)

(** ** Traces of request attempts *)

(** A completed attempt: the clock readings of the call and what the
    network did. *)
Definition attempt : Type := Clock * net_outcome.

(** The runner after a sequence of calls of [make_request], in the order
    in which they complete. *)
Definition after_attempts (r : LoadRunner) (l : list attempt) : LoadRunner :=
  foldl (λ r a, (make_request r a.1 a.2).1) r l.

Definition consistent (m : TestMetrics) : Prop :=
  total_requests m = successful_requests m + failed_requests m.

(** [c * n] *)
Fixpoint str_repeat (c : ascii) (n : nat) : string :=
  match n with
  | O => EmptyString
  | S n' => String c (str_repeat c n')
  end.

(** The runner with another method in its configuration. *)
Definition with_method (r : LoadRunner) (m : string) : LoadRunner :=
  mkLoadRunner
    (mkLoadTestConfig (target_url (config r)) m (headers (config r))
       (body (config r)) (auth_token (config r)) (concurrent_users (config r))
       (duration (config r)) (max_rps (config r)) (timeout (config r)))
    (metrics r) (running r) (request_interval r) (last_request_time r).

(** ** A small run *)

Definition demo_config : LoadTestConfig :=
  new_LoadTestConfig "http://x/health" "GET" None "" "" 2 2 10 30.

Definition demo_clock (t0 t1 : Q) : Clock := mkClock t0 t0 t1 t1.

(** Two users: one gets a 200, a transport error and then sees its deadline
    passed; the other gets a 500 and then sees its deadline passed. *)
Definition demo_schedule : list loop_event :=
  [ mkEvent 0 (1 # 10) (demo_clock (1 # 10) (2 # 10)) (NetResponse 200 "ok");
    mkEvent 1 (1 # 10) (demo_clock (1 # 10) (3 # 10)) (NetResponse 500 "boom");
    mkEvent 0 (4 # 10) (demo_clock (4 # 10) (9 # 10))
      (NetRaises (RequestError "connection refused"));
    mkEvent 1 (21 # 10) (demo_clock 0 0) (NetResponse 200 "late");
    mkEvent 0 (22 # 10) (demo_clock 0 0) (NetResponse 200 "late") ].

Definition demo_env : run_env :=
  mkRunEnv 0 (λ _, 0%Q) demo_schedule None (23 # 10).

(** Two users: the first is ended at its first turn by an exception that
    [make_request] does not catch; the second gets a 500 and then sees its
    deadline passed. *)
Definition mixed_schedule : list loop_event :=
  [ mkEvent 0 (1 # 10) (demo_clock (1 # 10) (2 # 10))
      (NetRaises (OtherException "Invalid URL"));
    mkEvent 1 (1 # 10) (demo_clock (1 # 10) (3 # 10)) (NetResponse 500 "boom");
    mkEvent 1 (21 # 10) (demo_clock 0 0) (NetResponse 200 "late") ].

Definition mixed_env : run_env :=
  mkRunEnv 0 (λ _, 0%Q) mixed_schedule None (23 # 10).

(** The runner after a 200, a 500 and a transport failure. *)
Definition demo_runner : LoadRunner :=
  after_attempts (new_LoadRunner demo_config)
    [ (demo_clock (1 # 10) (2 # 10), NetResponse 200 "ok");
      (demo_clock (1 # 10) (6 # 10), NetResponse 500 "boom");
      (demo_clock (4 # 10) (7 # 10), NetRaises (RequestError "reset")) ].

Definition demo_test_config : Executor.test_config :=
  Executor.mkTestConfig (Some "http://x/health") (Some "GET") None None None
    (Some 2) (Some 2) (Some 10) (Some 30) None None.

(** A configuration for the Python runner with a headers dictionary and a
    token. *)
Definition token_test_config : Executor.test_config :=
  Executor.mkTestConfig (Some "http://x/health") (Some "GET")
    (Some {["Accept" := "application/json"]}) None (Some "s3cret")
    (Some 2) (Some 2) (Some 10) (Some 30) None None.

(** The same run, cancelled from outside while [gather] is awaited. *)
Definition cancelled_env : Executor.exec_env :=
  Executor.mkExecEnv
    (Executor.mkK6Env (λ _, false) (Raise (OtherException "k6 not found"))
       Executor.Absent Executor.Absent)
    (mkRunEnv 0 (λ _, 0%Q) (take 3 demo_schedule) (Some CancelledError) (1 # 1)).

(** A configuration that selects k6, and a k6 that never exits by itself. *)
Definition k6_test_config : Executor.test_config :=
  Executor.mkTestConfig (Some "http://x/health") (Some "GET") None None None
    (Some 2000) (Some 60) (Some 1000) (Some 90) None (Some "steady_state").

Definition hanging_k6 : Executor.k6_env :=
  Executor.mkK6Env (λ _, true)
    (Return (Executor.mkChild None 0 "" "" true))
    Executor.Absent Executor.Absent.

(** A registry at its limit. *)
Definition full_manager : Manager.TestExecutionManager :=
  Manager.mkManager
    (list_to_map
       ((λ id, (id, Executor.set_is_running
                      (Executor.new_TestExecutor demo_test_config id) true))
          <$> ["a"; "b"; "c"; "d"; "e"]))
    5.

(** ** The in-process backend while it runs *)

(** An execution on the Python runner between two turns of its users: the
    executor that the registry knows, and the [LoadRunner] with its tasks,
    which are locals of [_run_python_test] and [run_test]. *)
Record in_flight : Type := mkInFlight {
  executor : Executor.TestExecutor;
  runner : LoadRunner;
  tasks : list task_state
}.

(** [TestExecutor.abort_test] called at that point. The method reaches the
    fields of the executor and nothing else. *)
Definition abort_in_flight (s : in_flight) (os_error : option string)
    : option (in_flight * Executor.result) :=
  match Executor.abort_test (executor s) os_error with
  | Some (ex', x) => Some (mkInFlight ex' (runner s) (tasks s), x)
  | None => None
  end.

(** The next turn of a user. *)
Definition turn (s : in_flight) (ev : loop_event) : in_flight :=
  let st := sched_step (runner s, tasks s) ev in
  mkInFlight (executor s) st.1 st.2.

Definition demo_in_flight : in_flight :=
  mkInFlight
    (Executor.set_is_running (Executor.new_TestExecutor demo_test_config "id-1") true)
    (run_gather (new_LoadRunner demo_config)
       (mkRunEnv 0 (λ _, 0%Q) (take 2 demo_schedule) None 0)).1
    (run_gather (new_LoadRunner demo_config)
       (mkRunEnv 0 (λ _, 0%Q) (take 2 demo_schedule) None 0)).2.

(** ** Failures during a run *)

(** The entry that [make_request] appends to [errors] for what the network
    did, if it is a failure that [make_request] records. *)
Definition failure_message (net : net_outcome) : option string :=
  match net with
  | NetResponse sc text =>
      if is_2xx sc then None
      else Some ("HTTP " +:+ pretty sc +:+ ": " +:+ str_prefix 100 text)
  | NetRaises (RequestError msg) => Some ("Request error: " +:+ msg)
  | NetRaises _ => None
  end.

(** The turn [ev] finds its user in the loop with the condition true and a
    method the chain knows: a request goes out. *)
Definition issues (st : LoadRunner * list task_state) (ev : loop_event) : bool :=
  match st.2 !! ev_user ev with
  | Some (Looping deadline) =>
      running st.1 && Qltb (ev_now ev) deadline
      && bool_decide (is_Some (dispatch (method (config st.1))))
  | _ => false
  end.

(** The deadline of user [u]. *)
Definition deadline_of (r : LoadRunner) (env : run_env) (u : nat) : Q :=
  (user_started env u + inject_Z (duration (config r)))%Q.

(** The call of the network ends in an exception that [make_request] does
    not catch. *)
Definition raises_other (net : net_outcome) : bool :=
  match net with
  | NetRaises (RequestError _) => false
  | NetRaises _ => true
  | NetResponse _ _ => false
  end.

(** A turn that ends its user, if it is still in its loop: the clock has
    reached the deadline, or [make_request] raises, for the method or for
    what the network did. *)
Definition turn_ends (r : LoadRunner) (env : run_env) (ev : loop_event) : Prop :=
  (deadline_of r env (ev_user ev) <= ev_now ev)%Q
  ∨ dispatch (method (config r)) = None
  ∨ raises_other (ev_net ev) = true.

(** Every virtual user ends: each is given a turn that ends it. *)
Definition users_end (r : LoadRunner) (env : run_env) : Prop :=
  ∀ u, (u < Z.to_nat (concurrent_users (config r)))%nat →
    ∃ ev, ev ∈ schedule env ∧ ev_user ev = u ∧ turn_ends r env ev.

(** A task is in its loop with the deadline it started with, or done. *)
Definition task_inv (dl : nat → Q) (ts : list task_state) : Prop :=
  ∀ u t, ts !! u = Some t → t = Looping (dl u) ∨ task_done t = true.

(** The turns of user [u] alone. *)
Definition own_turns (u : nat) (sched : list loop_event) : list loop_event :=
  filter (λ ev, ev_user ev = u) sched.

(** ** The child process *)

(** The child does not exit by itself within [t] seconds. *)
Definition outlives (c : Executor.child) (t : Q) : Prop :=
  match Executor.lifetime c with
  | Some d => (t < d)%Q
  | None => True
  end.

(** ** Counting the attempts of a trace *)

(** The network answered with a response. *)
Definition answered (a : attempt) : bool :=
  match a.2 with
  | NetResponse _ _ => true
  | _ => false
  end.

(** ... with a status in [200,300). *)
Definition succeeded (a : attempt) : bool :=
  match a.2 with
  | NetResponse sc _ => is_2xx sc
  | _ => false
  end.

(** ... with the status [sc]. *)
Definition answered_with (sc : Z) (a : attempt) : bool :=
  match a.2 with
  | NetResponse sc' _ => sc' =? sc
  | _ => false
  end.

(** The call ended in an [httpx.RequestError]. *)
Definition transport_failed (a : attempt) : bool :=
  match a.2 with
  | NetRaises (RequestError _) => true
  | _ => false
  end.

Definition tally (p : attempt → bool) (l : list attempt) : Z :=
  Z.of_nat (length (List.filter p l)).

(** The lists of the metrics are as long as their counters say, and no
    counter is negative. *)
Definition tallied (m : TestMetrics) : Prop :=
  consistent m
  ∧ 0 ≤ successful_requests m
  ∧ 0 ≤ failed_requests m
  ∧ Z.of_nat (length (response_times m)) = total_requests m.

(** ** The files and the environment of k6 *)

(** The lines of [results.json] that [json.loads] accepted. *)
Definition json_lines (ls : list K6.line) : list string :=
  omap (λ l, match l with K6.JsonLine v => Some v | _ => None end) ls.

Definition has_bad_line (ls : list K6.line) : bool :=
  existsb (λ l, match l with K6.BadLine => true | _ => false end) ls.

(** The variables that every k6 script is given. *)
Definition base_keys : gset string :=
  {[ "TARGET_URL"; "TARGET_METHOD"; "TARGET_HEADERS"; "TARGET_BODY";
     "AUTH_TOKEN"; "TEST_DURATION"; "MAX_RPS" ]}.

(** The variables of one load profile. *)
Definition profile_keys (profile : option string) : gset string :=
  match profile with
  | Some t =>
      if String.eqb t "ramp_up"
      then {[ "INITIAL_USERS"; "TARGET_USERS"; "RAMP_DURATION"; "HOLD_DURATION" ]}
      else if String.eqb t "spike"
      then {[ "BASELINE_USERS"; "SPIKE_USERS"; "SPIKE_DURATION";
              "BASELINE_DURATION" ]}
      else if String.eqb t "soak"
      then {[ "CONCURRENT_USERS"; "SOAK_DURATION" ]}
      else ∅
  | None => ∅
  end.

(** The profiles whose branch of [_prepare_k6_env] reads
    [load_profile_config]. *)
Definition reads_profile_config (profile : option string) : bool :=
  match profile with
  | Some t => String.eqb t "ramp_up" || String.eqb t "spike" || String.eqb t "soak"
  | None => false
  end.

(** The script of the profile is known and present. *)
Definition script_available (cfg : Executor.test_config) (env : Executor.k6_env)
    : bool :=
  match Executor._get_k6_script_path
          (default "steady_state" (Executor.load_profile_type cfg)) with
  | Some path => Executor.path_exists env path
  | None => false
  end.

(** * Properties *)

Example pretty_status : pretty 404 = "404".
Proof. vm_compute. reflexivity. Qed.

Example upper_mixed : upper "pAtCh" = "PATCH".
Proof. reflexivity. Qed.

(** ** The counters *)

Section Counters.

Lemma record_response_consistent m sc text rt :
  consistent m → consistent (record_response m sc text rt).
Proof.
  unfold consistent, record_response. intros H.
  destruct (is_2xx sc); simpl; lia.
Qed.

Lemma record_request_error_consistent m msg rt :
  consistent m → consistent (record_request_error m msg rt).
Proof. unfold consistent, record_request_error. simpl. lia. Qed.

Lemma make_request_consistent r clk net :
  consistent (metrics r) → consistent (metrics (make_request r clk net).1).
Proof.
  intros H. unfold make_request.
  destruct (dispatch _); [|done].
  destruct net as [sc text|[]]; simpl; auto using
    record_response_consistent, record_request_error_consistent.
Qed.

Lemma after_attempts_consistent l : ∀ r,
  consistent (metrics r) → consistent (metrics (after_attempts r l)).
Proof.
  induction l as [|a l IH]; intros r H; [done|].
  apply IH, make_request_consistent, H.
Qed.

(** Whatever [make_request] preserves, a whole schedule preserves. *)
Lemma sched_step_preserves (P : LoadRunner → Prop) :
  (∀ r clk net, P r → P (make_request r clk net).1) →
  ∀ st ev, P st.1 → P (sched_step st ev).1.
Proof.
  intros Hmk [r tasks] ev H. unfold sched_step. simpl.
  destruct (tasks !! ev_user ev) as [[deadline| |e]|]; try done.
  unfold user_iteration.
  destruct (running r && Qltb (ev_now ev) deadline); [|done].
  specialize (Hmk r (ev_clock ev) (ev_net ev) H).
  destruct (make_request r (ev_clock ev) (ev_net ev)) as [r' [x|e]]; done.
Qed.

Lemma schedule_preserves (P : LoadRunner → Prop) :
  (∀ r clk net, P r → P (make_request r clk net).1) →
  ∀ sched st, P st.1 → P (foldl sched_step st sched).1.
Proof.
  intros Hmk sched. induction sched as [|ev sched IH]; intros st H; [done|].
  simpl. apply IH, sched_step_preserves; done.
Qed.

Lemma run_test_consistent r env r' m :
  consistent (metrics r) →
  run_test r env = Some (r', Return m) →
  m = metrics r' ∧ consistent m.
Proof.
  intros H. unfold run_test, run_gather.
  pose proof (schedule_preserves (λ r, consistent (metrics r))
                make_request_consistent (schedule env)
                (run_begin r env, spawn_users (run_begin r env) env) H)
    as Hst.
  destruct (foldl sched_step _ _) as [r2 tasks]. simpl in *.
  destruct (interrupt env) as [e|].
  - destruct (is_Exception e); intros [= <- <-]; done.
  - destruct (forallb task_done tasks); intros [= <- <-]; done.
Qed.

Lemma generate_report_counters r rep :
  generate_report r = Return (ReportOk rep) →
  Report.total_requests (Report.metrics rep) = total_requests (metrics r)
  ∧ Report.successful_requests (Report.metrics rep) = successful_requests (metrics r)
  ∧ Report.failed_requests (Report.metrics rep) = failed_requests (metrics r).
Proof.
  unfold generate_report.
  destruct (response_times (metrics r)) as [|x l]; [done|].
  destruct (index _ _) as [p50|]; [|done]. simpl.
  destruct (index _ _) as [p95|]; [|done]. simpl.
  destruct (index _ _) as [p99|]; [|done]. simpl.
  intros [= <-]. done.
Qed.

End Counters.

(** C1. After every completed attempt of [make_request], whatever the
    interleaving of responses and transport failures, a runner that started
    from fresh metrics has [total_requests = successful_requests +
    failed_requests]; so have the metrics returned by [run_test], the
    report generated from them and the counters that [_run_python_test]
    copies into its result. *)
Theorem totals_invariant (cfg : LoadTestConfig) :
  (∀ l : list attempt,
     consistent (metrics (after_attempts (new_LoadRunner cfg) l)))
  ∧ (∀ env r' m,
       run_test (new_LoadRunner cfg) env = Some (r', Return m) →
       consistent m
       ∧ ∀ rep, generate_report r' = Return (ReportOk rep) →
           Report.total_requests (Report.metrics rep)
           = Report.successful_requests (Report.metrics rep)
             + Report.failed_requests (Report.metrics rep))
  ∧ (∀ ex tc env ex' id rep total successful failed times,
       Executor._run_python_test ex tc env
       = Some (ex', Return (Executor.PythonSuccess id rep total successful
                              failed times)) →
       total = successful + failed).
Proof.
  split; [|split].
  - intros l. by apply after_attempts_consistent.
  - intros env r' m Hrun.
    apply run_test_consistent in Hrun as [-> Hm]; [|done].
    split; [done|]. intros rep Hrep.
    apply generate_report_counters in Hrep as (-> & -> & ->). exact Hm.
  - intros ex tc env ex' id rep total successful failed times.
    unfold Executor._run_python_test.
    destruct (Executor.target_url tc) as [url|]; [|done].
    destruct (run_test _ _) as [[r' [m|e]]|] eqn:Hrun; [|done..].
    apply run_test_consistent in Hrun as [-> Hm]; [|done].
    destruct (generate_report r') as [x|e]; [|done].
    intros [= _ _ _ <- <- <- _]. exact Hm.
Qed.

Lemma totals_invariant_witness :
  ∃ r' m rep,
    run_test (new_LoadRunner demo_config) demo_env = Some (r', Return m)
    ∧ generate_report r' = Return (ReportOk rep)
    ∧ total_requests m = 3
    ∧ consistent m
    ∧ Report.total_requests (Report.metrics rep)
      = Report.successful_requests (Report.metrics rep)
        + Report.failed_requests (Report.metrics rep).
Proof.
  destruct (run_test (new_LoadRunner demo_config) demo_env)
    as [[r' [m|e]]|] eqn:Hrun; [|vm_compute in Hrun; discriminate..].
  destruct (generate_report r') as [[msg|rep]|e] eqn:Hrep.
  2:{ exists r', m, rep.
      destruct (proj1 (proj2 (totals_invariant demo_config)) demo_env r' m Hrun)
        as [Hm Hr].
      split; [done|]. split; [done|]. split.
      - vm_compute in Hrun. injection Hrun as _ <-. reflexivity.
      - split; [exact Hm|]. by apply Hr. }
  all: vm_compute in Hrun; injection Hrun as <- _;
       vm_compute in Hrep; discriminate.
Defined.

(** ** One call of [make_request] *)

Section MakeRequest.

Lemma length_append (a b : string) :
  String.length (a +:+ b) = (String.length a + String.length b)%nat.
Proof. induction a as [|c a IH]; simpl; [done|]. by rewrite IH. Qed.

Lemma length_str_prefix n s : (String.length (str_prefix n s) ≤ n)%nat.
Proof.
  unfold str_prefix. revert s.
  induction n as [|n IH]; intros [|c s]; simpl; try lia.
  specialize (IH s). lia.
Qed.

Lemma length_str_repeat c n : String.length (str_repeat c n) = n.
Proof. induction n as [|n IH]; simpl; [done|]. by rewrite IH. Qed.

Lemma is_2xx_spec sc : is_2xx sc = bool_decide (200 ≤ sc < 300).
Proof. unfold is_2xx. case_bool_decide; lia. Qed.

End MakeRequest.

(** C9, as the code has it. For every attempt that [make_request] issues:
    a response with a status in [200,300) is a success; any other status
    and any transport failure is a failure. A response always adds one to
    the histogram entry of its status; a transport failure leaves the
    histogram alone. A failed response is recorded as the text
    ["HTTP <status>: "] followed by at most 100 characters of the body; a
    transport failure is recorded as ["Request error: "] followed by the
    whole message of the exception. *)
Theorem outcome_classification (r : LoadRunner) (clk : Clock) (v : verb) :
  dispatch (method (config r)) = Some v →
  let rt := ((t_done clk - t_start clk) * 1000)%Q in
  (∀ sc text,
     let r' := (make_request r clk (NetResponse sc text)).1 in
     let res := (make_request r clk (NetResponse sc text)).2 in
     status_codes (metrics r')
       = <[sc := default 0 (status_codes (metrics r) !! sc) + 1]>
           (status_codes (metrics r))
     ∧ total_requests (metrics r') = total_requests (metrics r) + 1
     ∧ if bool_decide (200 ≤ sc < 300)
       then res = Return (ResponseResult true sc rt "")
            ∧ successful_requests (metrics r') = successful_requests (metrics r) + 1
            ∧ failed_requests (metrics r') = failed_requests (metrics r)
            ∧ errors (metrics r') = errors (metrics r)
       else res = Return (ResponseResult false sc rt (str_prefix 100 text))
            ∧ successful_requests (metrics r') = successful_requests (metrics r)
            ∧ failed_requests (metrics r') = failed_requests (metrics r) + 1
            ∧ errors (metrics r')
              = errors (metrics r)
                  ++ ["HTTP " +:+ pretty sc +:+ ": " +:+ str_prefix 100 text]
            ∧ (String.length (str_prefix 100 text) ≤ 100)%nat)
  ∧ (∀ msg,
       let r' := (make_request r clk (NetRaises (RequestError msg))).1 in
       let res := (make_request r clk (NetRaises (RequestError msg))).2 in
       res = Return (ErrorResult msg rt)
       ∧ total_requests (metrics r') = total_requests (metrics r) + 1
       ∧ successful_requests (metrics r') = successful_requests (metrics r)
       ∧ failed_requests (metrics r') = failed_requests (metrics r) + 1
       ∧ errors (metrics r') = errors (metrics r) ++ ["Request error: " +:+ msg]
       ∧ status_codes (metrics r') = status_codes (metrics r)).
Proof.
  intros Hd rt. split.
  - intros sc text. unfold make_request. rewrite Hd. simpl.
    unfold record_response. rewrite is_2xx_spec.
    case_bool_decide; simpl; repeat split; auto using length_str_prefix.
  - intros msg. unfold make_request. rewrite Hd. simpl. done.
Qed.

Lemma outcome_classification_witness :
  let r := new_LoadRunner demo_config in
  let clk := demo_clock 0 (1 # 10) in
  errors (metrics (make_request r clk (NetResponse 404 "not here")).1)
    = ["HTTP 404: not here"]
  ∧ errors (metrics (make_request r clk (NetRaises (RequestError "reset"))).1)
    = ["Request error: reset"].
Proof.
  intros r clk.
  destruct (outcome_classification r clk GET eq_refl) as [Hresp Herr]. split.
  - destruct (Hresp 404 "not here") as (_ & _ & H).
    change (bool_decide (200 ≤ 404 < 300)) with false in H.
    destruct H as (_ & _ & _ & -> & _). reflexivity.
  - destruct (Herr "reset") as (_ & _ & _ & _ & -> & _). reflexivity.
Defined.

(** C9 as stated fails: no bound holds for the recorded message of a
    transport failure. The message of the exception is recorded whole; for
    instance one of 150 characters gives an entry of 165. *)
Lemma transport_error_message_not_truncated :
  (let r := new_LoadRunner demo_config in
   let msg := str_repeat "x" 150 in
   errors (metrics (make_request r (demo_clock 0 1)
                      (NetRaises (RequestError msg))).1)
   = ["Request error: " +:+ msg]
   ∧ String.length ("Request error: " +:+ msg) = 165%nat)
  ∧ ¬ ∃ bound : nat, ∀ msg entry,
        entry ∈ errors (metrics (make_request (new_LoadRunner demo_config)
                                   (demo_clock 0 1)
                                   (NetRaises (RequestError msg))).1) →
        (String.length entry ≤ bound)%nat.
Proof.
  split; [split; reflexivity|].
  intros [bound H].
  specialize (H (str_repeat "x" (S bound))
                ("Request error: " +:+ str_repeat "x" (S bound))).
  assert (Hlen : (String.length ("Request error: " +:+ str_repeat "x" (S bound))
                  ≤ bound)%nat).
  { apply H. change (errors _) with
      ([] ++ ["Request error: " +:+ str_repeat "x" (S bound)]).
    set_solver. }
  rewrite length_append, length_str_repeat in Hlen. simpl in Hlen. lia.
Qed.

(** C10. A call of [make_request] that ends in a transport failure, or in
    any other exception, leaves [last_request_time] as it was, so the delay
    computed before the next request is the one the previous stamp gives;
    a call that received a response sets the stamp to the clock reading
    taken after the bookkeeping. *)
Theorem transport_failure_keeps_stamp (r : LoadRunner) (clk : Clock) :
  (∀ msg,
     let r' := (make_request r clk (NetRaises (RequestError msg))).1 in
     last_request_time r' = last_request_time r
     ∧ request_interval r' = request_interval r
     ∧ ∀ now, rate_limit_delay r' now = rate_limit_delay r now)
  ∧ (∀ e, last_request_time (make_request r clk (NetRaises e)).1
          = last_request_time r)
  ∧ (∀ sc text v,
       dispatch (method (config r)) = Some v →
       last_request_time (make_request r clk (NetResponse sc text)).1
       = t_stamp clk).
Proof.
  split; [|split].
  - intros msg. unfold make_request.
    destruct (dispatch _); simpl; done.
  - intros e. unfold make_request.
    destruct (dispatch _); [|done]. destruct e; done.
  - intros sc text v Hd. unfold make_request. rewrite Hd. done.
Qed.

Lemma transport_failure_keeps_stamp_witness :
  let r := set_last_request_time (new_LoadRunner demo_config) (3 # 10) in
  let clk := demo_clock (4 # 10) (9 # 10) in
  last_request_time (make_request r clk (NetRaises (RequestError "reset"))).1
    = (3 # 10)%Q
  ∧ last_request_time (make_request r clk (NetResponse 200 "ok")).1 = (9 # 10)%Q.
Proof.
  intros r clk.
  destruct (transport_failure_keeps_stamp r clk) as (Hfail & _ & Hresp). split.
  - exact (proj1 (Hfail "reset")).
  - exact (Hresp 200 "ok" GET eq_refl).
Defined.

(** C7, the part the code does not meet: HEAD and OPTIONS pass the
    validator of the schema layer, and [make_request] answers both with the
    [ValueError] of its final [else]; nothing is recorded in the metrics. *)
Theorem head_and_options_unsupported (r : LoadRunner) (clk : Clock)
    (net : net_outcome) (m : string) :
  m = "HEAD" ∨ m = "OPTIONS" →
  Schemas.validate_method m = Return m
  ∧ make_request (with_method r m) clk net
    = (with_method r m, Raise (ValueError ("Unsupported HTTP method: " +:+ m))).
Proof. intros [-> | ->]; split; reflexivity. Qed.

Lemma head_and_options_unsupported_witness :
  make_request (with_method (new_LoadRunner demo_config) "HEAD")
    (demo_clock 0 1) (NetResponse 200 "")
  = (with_method (new_LoadRunner demo_config) "HEAD",
     Raise (ValueError "Unsupported HTTP method: HEAD")).
Proof.
  exact (proj2 (head_and_options_unsupported (new_LoadRunner demo_config)
                  (demo_clock 0 1) (NetResponse 200 "") "HEAD" (or_introl eq_refl))).
Defined.

(** The five verbs of the chain are reached whatever the letter case. *)
Lemma dispatch_case_insensitive (m : string) :
  (upper m = "GET" → dispatch m = Some GET)
  ∧ (upper m = "POST" → dispatch m = Some POST)
  ∧ (upper m = "PUT" → dispatch m = Some PUT)
  ∧ (upper m = "DELETE" → dispatch m = Some DELETE)
  ∧ (upper m = "PATCH" → dispatch m = Some PATCH).
Proof. unfold dispatch. repeat split; intros ->; reflexivity. Qed.

(** A method outside the five raises at once and records nothing. *)
Lemma unsupported_method_raises (r : LoadRunner) (clk : Clock) (net : net_outcome) :
  dispatch (method (config r)) = None →
  make_request r clk net
  = (r, Raise (ValueError ("Unsupported HTTP method: " +:+ method (config r)))).
Proof. intros H. unfold make_request. by rewrite H. Qed.

(** ** Statistics of the report *)

Section Statistics.

Local Open Scope Q_scope.

Lemma Qltb_lt x y : Qltb x y = true ↔ x < y.
Proof.
  unfold Qltb. rewrite negb_true_iff, <- not_true_iff_false, Qle_bool_iff.
  split; [apply Qnot_le_lt | apply Qlt_not_le].
Qed.

Lemma Qltb_ge x y : Qltb x y = false ↔ y <= x.
Proof. unfold Qltb. by rewrite negb_false_iff, Qle_bool_iff. Qed.

Lemma Qle_bool_false x y : Qle_bool x y = false → y <= x.
Proof.
  intros H. apply Qlt_le_weak, Qnot_le_lt. rewrite <- Qle_bool_iff. congruence.
Qed.

(** *** sorted *)

Lemma insert_sorted_perm x l : insert_sorted x l ≡ₚ x :: l.
Proof.
  induction l as [|y l IH]; simpl; [done|].
  destruct (Qle_bool x y); [done|]. rewrite IH. apply Permutation_swap.
Qed.

Lemma sorted_perm l : sorted l ≡ₚ l.
Proof.
  induction l as [|x l IH]; simpl; [done|].
  by rewrite insert_sorted_perm, IH.
Qed.

Lemma length_sorted l : length (sorted l) = length l.
Proof. by rewrite sorted_perm. Qed.

Lemma insert_sorted_ascending x l :
  StronglySorted Qle l → StronglySorted Qle (insert_sorted x l).
Proof.
  induction 1 as [|y l Hl IH Hy]; simpl.
  - repeat constructor.
  - destruct (Qle_bool x y) eqn:Hxy.
    + apply Qle_bool_iff in Hxy. constructor; [by constructor|].
      constructor; [done|].
      eapply Forall_impl; [exact Hy|]. intros z Hz. by apply Qle_trans with y.
    + apply Qle_bool_false in Hxy. constructor; [done|].
      rewrite insert_sorted_perm. by constructor.
Qed.

Lemma sorted_ascending l : StronglySorted Qle (sorted l).
Proof.
  induction l as [|x l IH]; simpl; [constructor|].
  by apply insert_sorted_ascending.
Qed.

Lemma ascending_lookup (l : list Q) i j a b :
  StronglySorted Qle l → (i ≤ j)%nat →
  l !! i = Some a → l !! j = Some b → a <= b.
Proof.
  intros Hl. revert i j.
  induction Hl as [|x l Hl IH Hx]; intros i j Hij Hi Hj; [done|].
  destruct i as [|i], j as [|j]; simpl in *; try lia.
  - injection Hi as <-. injection Hj as <-. apply Qle_refl.
  - injection Hi as <-. rewrite Forall_forall in Hx.
    apply Hx. by eapply list_elem_of_lookup_2.
  - eapply IH; [|done..]. lia.
Qed.

(** *** min and max *)

Lemma py_max_ge_init l : ∀ x, x <= py_max x l.
Proof.
  unfold py_max. induction l as [|y l IH]; intros x; simpl; [apply Qle_refl|].
  destruct (Qltb x y) eqn:H; [|done].
  apply Qltb_lt in H. eapply Qle_trans; [|apply IH]. by apply Qlt_le_weak.
Qed.

Lemma py_max_upper l : ∀ x y, y ∈ x :: l → y <= py_max x l.
Proof.
  induction l as [|z l IH]; intros x y Hy.
  - apply list_elem_of_singleton in Hy as ->. apply Qle_refl.
  - apply elem_of_cons in Hy as [->|Hy]; [apply py_max_ge_init|].
    unfold py_max in *. simpl. destruct (Qltb x z) eqn:H.
    + by apply IH.
    + apply elem_of_cons in Hy as [->|Hy].
      * apply Qltb_ge in H. eapply Qle_trans; [exact H|]. apply (py_max_ge_init l).
      * apply IH. by right.
Qed.

Lemma py_min_le_init l : ∀ x, py_min x l <= x.
Proof.
  unfold py_min. induction l as [|y l IH]; intros x; simpl; [apply Qle_refl|].
  destruct (Qltb y x) eqn:H; [|done].
  apply Qltb_lt in H. eapply Qle_trans; [apply IH|]. by apply Qlt_le_weak.
Qed.

Lemma py_min_lower l : ∀ x y, y ∈ x :: l → py_min x l <= y.
Proof.
  induction l as [|z l IH]; intros x y Hy.
  - apply list_elem_of_singleton in Hy as ->. apply Qle_refl.
  - apply elem_of_cons in Hy as [->|Hy]; [apply py_min_le_init|].
    unfold py_min in *. simpl. destruct (Qltb z x) eqn:H.
    + by apply IH.
    + apply elem_of_cons in Hy as [->|Hy].
      * apply Qltb_ge in H. eapply Qle_trans; [|exact H]. apply (py_min_le_init l).
      * apply IH. by right.
Qed.

Lemma py_max_elem l : ∀ x, py_max x l ∈ x :: l.
Proof.
  unfold py_max. induction l as [|y l IH]; intros x; simpl; [set_solver|].
  destruct (Qltb x y).
  - right. apply IH.
  - destruct (elem_of_cons l (foldl (λ cur z, if Qltb cur z then z else cur) x l) x)
      as [[->|H] _]; [apply IH|by left|by do 2 right].
Qed.

(** *** mean *)

Lemma sum_bounds (l : list Q) lo hi :
  (∀ y, y ∈ l → lo <= y ∧ y <= hi) →
  lo * inject_Z (Z.of_nat (length l)) <= foldr Qplus 0 l
  ∧ foldr Qplus 0 l <= hi * inject_Z (Z.of_nat (length l)).
Proof.
  induction l as [|x l IH]; intros H.
  - simpl. split; rewrite Qmult_0_r; apply Qle_refl.
  - destruct IH as [IH1 IH2]; [intros y Hy; apply H; by right|].
    destruct (H x) as [Hx1 Hx2]; [by left|].
    assert (Hlen : inject_Z (Z.of_nat (length (x :: l)))
                   == 1 + inject_Z (Z.of_nat (length l))).
    { simpl length. rewrite Nat2Z.inj_succ, <- Z.add_1_l, inject_Z_plus. reflexivity. }
    rewrite Hlen. simpl foldr. split.
    + rewrite Qmult_plus_distr_r, Qmult_1_r. by apply Qplus_le_compat.
    + rewrite Qmult_plus_distr_r, Qmult_1_r. by apply Qplus_le_compat.
Qed.

Lemma mean_bounds x l :
  py_min x l <= mean (x :: l) ∧ mean (x :: l) <= py_max x l.
Proof.
  destruct (sum_bounds (x :: l) (py_min x l) (py_max x l)) as [H1 H2].
  { intros y Hy. split; [by apply py_min_lower | by apply py_max_upper]. }
  assert (Hpos : 0 < inject_Z (Z.of_nat (length (x :: l)))).
  { change 0 with (inject_Z 0). rewrite <- Zlt_Qlt. simpl length. lia. }
  unfold mean. split.
  - by apply Qle_shift_div_l.
  - by apply Qle_shift_div_r.
Qed.

(** *** round *)

Lemma round_half_even_range q :
  (Qfloor q ≤ round_half_even q ≤ Qfloor q + 1)%Z.
Proof.
  unfold round_half_even. destruct (_ ?= _); [destruct (Z.even _)|..]; lia.
Qed.

Lemma round_half_even_mono a b : a <= b → (round_half_even a ≤ round_half_even b)%Z.
Proof.
  intros Hab.
  pose proof (Qfloor_resp_le _ _ Hab) as Hf.
  destruct (decide (Qfloor a = Qfloor b)) as [Heq|Hne].
  - unfold round_half_even. rewrite Heq.
    destruct (a - inject_Z (Qfloor b) ?= 1 # 2) eqn:Ha;
      destruct (b - inject_Z (Qfloor b) ?= 1 # 2) eqn:Hb;
      try (destruct (Z.even (Qfloor b)); lia); try lia; exfalso.
    + apply Qeq_alt in Ha. apply Qlt_alt in Hb.
      apply (Qlt_irrefl (1 # 2)). rewrite <- Ha at 1.
      eapply Qle_lt_trans; [|exact Hb]. by apply Qplus_le_l.
    + apply Qgt_alt in Ha. apply Qeq_alt in Hb.
      apply (Qlt_irrefl (1 # 2)). rewrite <- Hb at 2.
      eapply Qlt_le_trans; [exact Ha|]. by apply Qplus_le_l.
    + apply Qgt_alt in Ha. apply Qlt_alt in Hb.
      apply (Qlt_irrefl (1 # 2)).
      eapply Qlt_trans; [exact Ha|].
      eapply Qle_lt_trans; [|exact Hb]. by apply Qplus_le_l.
  - pose proof (round_half_even_range a). pose proof (round_half_even_range b). lia.
Qed.

Lemma round2_mono a b : a <= b → round2 a <= round2 b.
Proof.
  intros Hab. unfold round2, Qle. simpl.
  apply Z.mul_le_mono_nonneg_r; [lia|].
  apply round_half_even_mono. by apply Qmult_le_compat_r.
Qed.

(** *** percentile indices *)

Lemma pct_index_floor n p :
  0 <= p → pct_index n p = Z.to_nat (Qfloor (inject_Z (Z.of_nat n) * p)).
Proof.
  intros Hp. unfold pct_index, py_int.
  destruct (Qle_bool 0 _) eqn:H; [done|].
  apply Qle_bool_false in H.
  assert (H0 : 0 <= inject_Z (Z.of_nat n) * p).
  { apply Qmult_le_0_compat; [|done].
    change 0 with (inject_Z 0). rewrite <- Zle_Qle. lia. }
  assert (Hz : inject_Z (Z.of_nat n) * p == 0) by by apply Qle_antisym.
  rewrite (Qceiling_comp _ _ Hz), (Qfloor_comp _ _ Hz). done.
Qed.

Lemma pct_index_div n (a : Z) (b : positive) :
  (0 ≤ a)%Z → pct_index n (a # b) = Z.to_nat (Z.of_nat n * a / Z.pos b).
Proof.
  intros Ha. rewrite pct_index_floor; [|unfold Qle; simpl; lia].
  unfold Qfloor, Qmult, inject_Z. simpl. by rewrite Pos.mul_1_l.
Qed.

Lemma pct_index_order n :
  (0 < n)%nat →
  (pct_index n (1 # 2) ≤ pct_index n (95 # 100)
   ∧ pct_index n (95 # 100) ≤ pct_index n (99 # 100)
   ∧ pct_index n (99 # 100) < n)%nat.
Proof.
  intros Hn. rewrite !pct_index_div by lia.
  pose proof (Z.div_mod (Z.of_nat n * 1) 2 ltac:(lia)).
  pose proof (Z.mod_pos_bound (Z.of_nat n * 1) 2 ltac:(lia)).
  pose proof (Z.div_mod (Z.of_nat n * 95) 100 ltac:(lia)).
  pose proof (Z.mod_pos_bound (Z.of_nat n * 95) 100 ltac:(lia)).
  pose proof (Z.div_mod (Z.of_nat n * 99) 100 ltac:(lia)).
  pose proof (Z.mod_pos_bound (Z.of_nat n * 99) 100 ltac:(lia)).
  lia.
Qed.

Lemma binary64_agrees_4096 :
  forallb Binary64.agrees (seq 0 (Z.to_nat 4097)) = true.
Proof. vm_compute. reflexivity. Qed.

(** Up to 4096 latencies the rational indices are the ones that double
    precision arithmetic gives. *)
Lemma pct_index_binary64 n :
  (Z.of_nat n ≤ 4096)%Z →
  Binary64.pct_index n Binary64.lit_0_5 = pct_index n (1 # 2)
  ∧ Binary64.pct_index n Binary64.lit_0_95 = pct_index n (95 # 100)
  ∧ Binary64.pct_index n Binary64.lit_0_99 = pct_index n (99 # 100).
Proof.
  intros Hn.
  assert (Hin : In n (seq 0 (Z.to_nat 4097))) by (apply in_seq; lia).
  pose proof (proj1 (forallb_forall Binary64.agrees _) binary64_agrees_4096 n Hin)
    as H.
  unfold Binary64.agrees in H.
  rewrite !andb_true_iff, !Z.eqb_eq in H.
  destruct H as [[H1 H2] H3].
  unfold Binary64.pct_index, pct_index. by rewrite H1, H2, H3.
Qed.

End Statistics.

(** C3. A report generated from at least one recorded latency exists (no
    index is out of range); its percentile fields are the entries of the
    ascending rearrangement of the latencies at the indices
    [floor(0.5 * n)], [floor(0.95 * n)] and [floor(0.99 * n)], rounded to two
    decimals; and [p50_ms <= p95_ms <= p99_ms <= maximum_ms] and
    [minimum_ms <= average_ms <= maximum_ms]. *)
Theorem report_percentiles (r : LoadRunner) :
  response_times (metrics r) ≠ [] →
  ∃ rep p50 p95 p99,
    generate_report r = Return (ReportOk rep)
    ∧ let ts := sorted (response_times (metrics r)) in
      let n := inject_Z (Z.of_nat (length ts)) in
      let rt := Report.response_times rep in
      StronglySorted Qle ts
      ∧ ts ≡ₚ response_times (metrics r)
      ∧ ts !! Z.to_nat (Qfloor (n * (1 # 2))) = Some p50
      ∧ ts !! Z.to_nat (Qfloor (n * (95 # 100))) = Some p95
      ∧ ts !! Z.to_nat (Qfloor (n * (99 # 100))) = Some p99
      ∧ Report.p50_ms rt = round2 p50
      ∧ Report.p95_ms rt = round2 p95
      ∧ Report.p99_ms rt = round2 p99
      ∧ (Report.p50_ms rt <= Report.p95_ms rt)%Q
      ∧ (Report.p95_ms rt <= Report.p99_ms rt)%Q
      ∧ (Report.p99_ms rt <= Report.maximum_ms rt)%Q
      ∧ (Report.minimum_ms rt <= Report.average_ms rt)%Q
      ∧ (Report.average_ms rt <= Report.maximum_ms rt)%Q.
Proof.
  intros Hne. unfold generate_report.
  destruct (response_times (metrics r)) as [|x l] eqn:Hrt; [done|]. clear Hne.
  set (ts := sorted (x :: l)).
  assert (Hn : (0 < length ts)%nat).
  { unfold ts. rewrite length_sorted. simpl. lia. }
  destruct (pct_index_order (length ts) Hn) as (H1 & H2 & H3).
  destruct (lookup_lt_is_Some_2 ts (pct_index (length ts) (1 # 2)))
    as [p50 H50]; [lia|].
  destruct (lookup_lt_is_Some_2 ts (pct_index (length ts) (95 # 100)))
    as [p95 H95]; [lia|].
  destruct (lookup_lt_is_Some_2 ts (pct_index (length ts) (99 # 100)))
    as [p99 H99]; [lia|].
  exists (Report.mkReport
            (Report.mkTestConfig (target_url (config r)) (method (config r))
               (concurrent_users (config r)) (duration (config r))
               (max_rps (config r)))
            (Report.mkExecution (start_time (metrics r)) (end_time (metrics r))
               match start_time (metrics r), end_time (metrics r) with
               | Some s, Some e => (e - s)%Q
               | _, _ => 0%Q
               end)
            (Report.mkMetrics (total_requests (metrics r))
               (successful_requests (metrics r)) (failed_requests (metrics r))
               (round2
                  (if 0 <? total_requests (metrics r)
                   then (inject_Z (failed_requests (metrics r))
                         / inject_Z (total_requests (metrics r)) * 100)%Q
                   else 0%Q))
               (round2
                  (if Qltb 0 match start_time (metrics r), end_time (metrics r) with
                             | Some s, Some e => (e - s)%Q
                             | _, _ => 0%Q
                             end
                   then (inject_Z (total_requests (metrics r))
                         / match start_time (metrics r), end_time (metrics r) with
                           | Some s, Some e => (e - s)%Q
                           | _, _ => 0%Q
                           end)%Q
                   else 0%Q)))
            (Report.mkResponseTimes (round2 (mean (x :: l)))
               (round2 (py_min x l)) (round2 (py_max x l))
               (round2 p50) (round2 p95) (round2 p99))
            (status_codes (metrics r))
            (take 10 (errors (metrics r)))
            (length (errors (metrics r)))),
    p50, p95, p99.
  split.
  { unfold index. rewrite H50. simpl. rewrite H95. simpl. rewrite H99. done. }
  cbv zeta. simpl Report.response_times.
  simpl Report.p50_ms. simpl Report.p95_ms. simpl Report.p99_ms.
  simpl Report.maximum_ms. simpl Report.minimum_ms. simpl Report.average_ms.
  fold ts.
  rewrite <- !pct_index_floor by (unfold Qle; simpl; lia).
  split; [apply sorted_ascending|].
  split; [apply sorted_perm|].
  do 6 (split; [done|]).
  pose proof (sorted_ascending (x :: l)) as Hasc. fold ts in Hasc.
  split; [by apply round2_mono, (ascending_lookup ts _ _ _ _ Hasc H1)|].
  split; [by apply round2_mono, (ascending_lookup ts _ _ _ _ Hasc H2)|].
  split.
  { apply round2_mono, py_max_upper.
    rewrite <- (sorted_perm (x :: l)). by eapply list_elem_of_lookup_2. }
  split; apply round2_mono, mean_bounds.
Qed.

Lemma report_percentiles_witness :
  ∃ rep p50 p95 p99,
    generate_report demo_runner = Return (ReportOk rep)
    ∧ let ts := sorted (response_times (metrics demo_runner)) in
      let n := inject_Z (Z.of_nat (length ts)) in
      let rt := Report.response_times rep in
      StronglySorted Qle ts
      ∧ ts ≡ₚ response_times (metrics demo_runner)
      ∧ ts !! Z.to_nat (Qfloor (n * (1 # 2))) = Some p50
      ∧ ts !! Z.to_nat (Qfloor (n * (95 # 100))) = Some p95
      ∧ ts !! Z.to_nat (Qfloor (n * (99 # 100))) = Some p99
      ∧ Report.p50_ms rt = round2 p50
      ∧ Report.p95_ms rt = round2 p95
      ∧ Report.p99_ms rt = round2 p99
      ∧ (Report.p50_ms rt <= Report.p95_ms rt)%Q
      ∧ (Report.p95_ms rt <= Report.p99_ms rt)%Q
      ∧ (Report.p99_ms rt <= Report.maximum_ms rt)%Q
      ∧ (Report.minimum_ms rt <= Report.average_ms rt)%Q
      ∧ (Report.average_ms rt <= Report.maximum_ms rt)%Q.
Proof.
  apply (report_percentiles demo_runner). vm_compute. discriminate.
Defined.

Example report_of_demo_runner :
  (λ rep, (Report.p50_ms rep, Report.p95_ms rep, Report.p99_ms rep,
           Report.minimum_ms rep, Report.average_ms rep, Report.maximum_ms rep))
    <$> match generate_report demo_runner with
        | Return (ReportOk rep) => Some (Report.response_times rep)
        | _ => None
        end
  = Some (30000 # 100, 50000 # 100, 50000 # 100,
          10000 # 100, 30000 # 100, 50000 # 100)%Q.
Proof. vm_compute. reflexivity. Qed.

(** ** The registry *)

Section Registry.

Import Executor Manager.

Lemma clean_up_delete id (a : gmap string TestExecutor) :
  clean_up id a = delete id a.
Proof.
  unfold clean_up. destruct (a !! id) eqn:H; [done|].
  symmetry. by apply delete_id.
Qed.

(** On every outcome that [start_test] turns into a returned dictionary, the
    registry is what it was before the call, without the new identifier. *)
Lemma start_test_releases mgr cfg uuid env mgr' x :
  (size (active_tests mgr) < max_concurrent_tests mgr)%nat →
  start_test mgr cfg uuid env = Some (mgr', Return x) →
  active_tests mgr' = delete uuid (active_tests mgr)
  ∧ active_tests mgr' !! uuid = None.
Proof.
  intros Hsize. unfold start_test.
  destruct (Nat.leb_spec (max_concurrent_tests mgr) (size (active_tests mgr)));
    [lia|].
  destruct (execute_test _ _ _) as [[ex' [y|e]]|]; [| |done].
  - intros [= <- <-]. simpl. rewrite clean_up_delete, delete_insert_eq.
    split; [done|]. apply lookup_delete_eq.
  - destruct (is_Exception e); intros [= <- <-]. simpl.
    rewrite clean_up_delete, delete_insert_eq.
    split; [done|]. apply lookup_delete_eq.
Qed.

End Registry.

(** C2. With the limit at 5 and five or more executions in the registry,
    [start_test] returns the dictionary with [success] false and the message
    of the limit, and the manager, hence its registry, is what it was. *)
Theorem start_test_rejects_at_capacity (mgr : Manager.TestExecutionManager)
    (cfg : Executor.test_config) (uuid : string) (env : Executor.exec_env) :
  Manager.max_concurrent_tests mgr = 5%nat →
  (5 ≤ size (Manager.active_tests mgr))%nat →
  let rejection := Executor.PlainFailure "Maximum concurrent tests (5) reached" in
  Manager.start_test mgr cfg uuid env = Some (mgr, Return rejection)
  ∧ Executor.success rejection = false
  ∧ ∀ mgr' x, Manager.start_test mgr cfg uuid env = Some (mgr', x) →
      Manager.active_tests mgr' = Manager.active_tests mgr.
Proof.
  intros Hmax Hsize rejection.
  assert (H : Manager.start_test mgr cfg uuid env = Some (mgr, Return rejection)).
  { unfold Manager.start_test. rewrite Hmax.
    destruct (Nat.leb_spec 5 (size (Manager.active_tests mgr))); [|lia].
    reflexivity. }
  split; [exact H|]. split; [reflexivity|].
  intros mgr' x. rewrite H. by intros [= <- _].
Qed.

Lemma start_test_rejects_at_capacity_witness :
  Manager.start_test full_manager demo_test_config "f" cancelled_env
  = Some (full_manager,
          Return (Executor.PlainFailure "Maximum concurrent tests (5) reached")).
Proof.
  refine (proj1 (start_test_rejects_at_capacity full_manager demo_test_config "f"
                   cancelled_env _ _)).
  - reflexivity.
  - vm_compute. lia.
Defined.

(** C4, the outcome the code does not cover. When the execution is
    cancelled, [asyncio.CancelledError] passes both [except Exception]
    handlers: [start_test] is left by the exception and the handle of the
    execution is still in the registry. *)
Theorem cancelled_start_test_keeps_handle (mgr : Manager.TestExecutionManager)
    (cfg : Executor.test_config) (uuid : string) (env : Executor.exec_env)
    (ex' : Executor.TestExecutor) :
  (size (Manager.active_tests mgr) < Manager.max_concurrent_tests mgr)%nat →
  Executor.execute_test (Executor.new_TestExecutor cfg uuid) cfg env
    = Some (ex', Raise CancelledError) →
  ∃ mgr',
    Manager.start_test mgr cfg uuid env = Some (mgr', Raise CancelledError)
    ∧ Manager.active_tests mgr' !! uuid = Some ex'
    ∧ Manager.get_active_tests mgr' !! uuid
      = Some (if Executor.is_running ex' then "running" else "completed").
Proof.
  intros Hsize Hex. unfold Manager.start_test.
  destruct (Nat.leb_spec (Manager.max_concurrent_tests mgr)
              (size (Manager.active_tests mgr))); [lia|].
  simpl. rewrite Hex. simpl. eexists. split; [done|]. simpl.
  unfold Manager.get_active_tests. simpl.
  rewrite lookup_fmap, !lookup_insert_eq. done.
Qed.

Lemma cancelled_start_test_keeps_handle_witness :
  ∃ mgr' ex',
    Manager.start_test Manager.new_TestExecutionManager demo_test_config "id-1"
      cancelled_env = Some (mgr', Raise CancelledError)
    ∧ Manager.active_tests mgr' !! "id-1" = Some ex'
    ∧ Manager.get_active_tests mgr' !! "id-1" = Some "completed".
Proof.
  destruct (Executor.execute_test
              (Executor.new_TestExecutor demo_test_config "id-1")
              demo_test_config cancelled_env) as [[ex' [x|[]]]|] eqn:Hex;
    try (vm_compute in Hex; discriminate).
  destruct (cancelled_start_test_keeps_handle Manager.new_TestExecutionManager
              demo_test_config "id-1" cancelled_env ex') as (mgr' & H1 & H2 & H3).
  - vm_compute. lia.
  - exact Hex.
  - exists mgr', ex'. split; [exact H1|]. split; [exact H2|].
    rewrite H3. vm_compute in Hex. injection Hex as <-. reflexivity.
Defined.

(** ** Supervision of the k6 process *)

Section Supervision.

Import Executor.

Lemma outlives_communicate c t : outlives c t → communicate (spawn c) t = None.
Proof.
  unfold outlives, communicate. simpl.
  destruct (lifetime c) as [d|]; [|done].
  intros H. destruct (Qle_bool d t) eqn:Hle; [|done].
  apply Qle_bool_iff in Hle. by apply Qlt_not_le in H.
Qed.

Lemma kill_spawn c : kill (spawn c) = mkPopen c None [SIGKILL].
Proof. reflexivity. Qed.

(** [abort_test] always returns: the wait that follows a SIGKILL ends. *)
Lemma abort_test_returns ex os_error : ∃ ex' x, abort_test ex os_error = Some (ex', x).
Proof.
  unfold abort_test. destruct (negb (is_running ex)); [eauto|].
  destruct (process ex) as [p|]; [|eauto].
  destruct (if alive p then os_error else None); [eauto|].
  destruct (wait_for (terminate p) 10) as [p2|] eqn:Hw; [eauto|].
  assert (wait (kill (terminate p)) = Some (reap (kill (terminate p)) (-9))) as ->;
    [|eauto].
  destruct p as [c [rc|] sigs]; [done|].
  unfold wait, kill, terminate, send, dies, sent. simpl.
  rewrite !existsb_app. simpl. by rewrite orb_true_r.
Qed.

End Supervision.

(** C5, as the code has it. When the k6 process does not exit within the
    timeout given to [communicate] (the configured one, else 3600 seconds),
    the supervisor sends SIGKILL at once, without a SIGTERM and without a
    grace period, and waits for the process to be reaped; the result is a
    failure with the reason "Test execution timed out" and the process is
    no longer running. *)
Theorem k6_timeout_kills (ex : Executor.TestExecutor) (cfg : Executor.test_config)
    (env : Executor.k6_env) (path url : string) (c : Executor.child) :
  Executor._get_k6_script_path
    (default "steady_state" (Executor.load_profile_type cfg)) = Some path →
  Executor.path_exists env path = true →
  Executor.target_url cfg = Some url →
  Executor.popen env = Return c →
  outlives c (Executor.effective_timeout cfg) →
  ∃ p,
    Executor._run_k6_test ex cfg env
      = Some (Executor.set_process ex p,
              Return (Executor.ExecFailure (Executor.execution_id ex)
                        "Test execution timed out"))
    ∧ Executor.signals p = [Executor.SIGKILL]
    ∧ Executor.returncode p = Some (-9)
    ∧ Executor.alive p = false.
Proof.
  intros Hpath Hexists Hurl Hpopen Hout.
  exists (Executor.reap (Executor.kill (Executor.spawn c)) (-9)).
  split; [|done].
  unfold Executor._run_k6_test.
  rewrite Hpath, Hexists, Hurl, Hpopen. simpl negb. cbv iota.
  rewrite (outlives_communicate _ _ Hout). reflexivity.
Qed.

Lemma k6_timeout_kills_witness :
  ∃ p,
    Executor._run_k6_test (Executor.new_TestExecutor k6_test_config "id-2")
      k6_test_config hanging_k6
      = Some (Executor.set_process
                (Executor.new_TestExecutor k6_test_config "id-2") p,
              Return (Executor.ExecFailure "id-2" "Test execution timed out"))
    ∧ Executor.signals p = [Executor.SIGKILL]
    ∧ Executor.returncode p = Some (-9)
    ∧ Executor.alive p = false.
Proof.
  apply (k6_timeout_kills (Executor.new_TestExecutor k6_test_config "id-2")
           k6_test_config hanging_k6 "runner/k6-scripts/basic-load-test.js"
           "http://x/health" (Executor.mkChild None 0 "" "" true));
    reflexivity || exact I.
Defined.

(** C5 as stated fails: on a k6 that never exits by itself (and that would
    honour SIGTERM), the only signal sent on timeout is SIGKILL. *)
Lemma k6_timeout_sends_no_sigterm :
  ∃ ex' x p,
    Executor.execute_test (Executor.new_TestExecutor k6_test_config "id-2")
      k6_test_config (Executor.mkExecEnv hanging_k6 demo_env)
      = Some (ex', Return x)
    ∧ Executor.error x = Some "Test execution timed out"
    ∧ Executor.process ex' = Some p
    ∧ Executor.signals p = [Executor.SIGKILL]
    ∧ head (Executor.signals p) ≠ Some Executor.SIGTERM
    ∧ Executor.sent Executor.SIGTERM p = false.
Proof.
  eexists _, _, _. split; [vm_compute; reflexivity|].
  repeat split; try reflexivity. discriminate.
Qed.

(** C6, on the code. Each virtual-user loop does test the [running] flag
    at every turn: with the flag cleared it issues no request and ends,
    with the flag set and the deadline ahead it calls [make_request]. But
    [TestExecutor.abort_test] never clears the flag: whatever it answers, it
    leaves the runner and its tasks as they are, and for an execution on
    the Python runner, which records no process, the answer is the failure
    "No process to abort". *)
Theorem abort_of_python_run (s : in_flight) (os_error : option string) :
  Executor.is_running (executor s) = true →
  (∃ s' x,
     abort_in_flight s os_error = Some (s', x)
     ∧ runner s' = runner s
     ∧ tasks s' = tasks s)
  ∧ (Executor.process (executor s) = None →
     abort_in_flight s os_error
     = Some (s, Executor.PlainFailure "No process to abort"))
  ∧ (∀ r deadline now clk net,
       running r = false →
       user_iteration r deadline now clk net = (r, Finished))
  ∧ (∀ r deadline now clk net,
       running r = true → (now < deadline)%Q →
       (user_iteration r deadline now clk net).1 = (make_request r clk net).1).
Proof.
  intros Hrun. split; [|split; [|split]].
  - unfold abort_in_flight.
    destruct (abort_test_returns (executor s) os_error) as (ex' & x & ->).
    by eexists _, _.
  - intros Hproc. unfold abort_in_flight, Executor.abort_test.
    rewrite Hrun, Hproc. simpl. by destruct s.
  - intros r deadline now clk net Hr. unfold user_iteration. by rewrite Hr.
  - intros r deadline now clk net Hr Hlt. unfold user_iteration.
    rewrite Hr. apply Qltb_lt in Hlt. rewrite Hlt. simpl.
    by destruct (make_request r clk net) as [r' [x|e]].
Qed.

Lemma abort_of_python_run_witness :
  abort_in_flight demo_in_flight None
  = Some (demo_in_flight, Executor.PlainFailure "No process to abort").
Proof.
  exact (proj1 (proj2 (abort_of_python_run demo_in_flight None eq_refl)) eq_refl).
Defined.

(** The failing input of C6: after the abort of a run on the Python runner
    the flag is still set, and the next turn of a user issues one more
    request. *)
Lemma abort_does_not_stop_users :
  ∃ s' x,
    abort_in_flight demo_in_flight None = Some (s', x)
    ∧ Executor.success x = false
    ∧ running (runner s') = true
    ∧ total_requests (metrics (runner s')) = 2
    ∧ total_requests
        (metrics (runner (turn s' (mkEvent 0 (4 # 10) (demo_clock (4 # 10) (5 # 10))
                                     (NetResponse 200 "ok"))))) = 3.
Proof.
  eexists _, _. split; [vm_compute; reflexivity|].
  repeat split; vm_compute; reflexivity.
Qed.

(** ** A whole run *)

Section Run.

Local Open Scope Q_scope.

Lemma make_request_control r clk net :
  running (make_request r clk net).1 = running r
  ∧ config (make_request r clk net).1 = config r.
Proof.
  unfold make_request. destruct (dispatch _); [|done].
  destruct net as [sc text|[]]; done.
Qed.

Lemma sched_step_control st ev :
  running (sched_step st ev).1 = running st.1
  ∧ config (sched_step st ev).1 = config st.1.
Proof.
  apply (sched_step_preserves
           (λ r, running r = running st.1 ∧ config r = config st.1)); [|done].
  intros r clk net [<- <-]. apply make_request_control.
Qed.

Lemma sched_fold_control sched : ∀ st,
  running (foldl sched_step st sched).1 = running st.1
  ∧ config (foldl sched_step st sched).1 = config st.1.
Proof.
  induction sched as [|ev sched IH]; intros st; [done|]. simpl.
  destruct (IH (sched_step st ev)) as [-> ->]. apply sched_step_control.
Qed.

(** *** Every task ends *)

Lemma user_iteration_task r deadline now clk net :
  (user_iteration r deadline now clk net).2 = Looping deadline
  ∨ task_done (user_iteration r deadline now clk net).2 = true.
Proof.
  unfold user_iteration. destruct (_ && _); [|by right].
  destruct (make_request r clk net) as [r' [x|e]]; [by left|by right].
Qed.

Lemma sched_step_task_inv dl st ev :
  task_inv dl st.2 → task_inv dl (sched_step st ev).2.
Proof.
  destruct st as [r ts]. intros Hinv. unfold sched_step. simpl.
  destruct (ts !! ev_user ev) as [[deadline| |e]|] eqn:Hu; try done.
  pose proof (user_iteration_task r deadline (ev_now ev) (ev_clock ev) (ev_net ev)) as Ht.
  destruct (user_iteration _ _ _ _ _) as [r' t']. simpl in *.
  intros u t Hlook.
  destruct (decide (ev_user ev = u)) as [<-|Hne].
  - rewrite list_lookup_insert_eq in Hlook by by eapply lookup_lt_Some.
    injection Hlook as <-.
    destruct (Hinv _ _ Hu) as [[= ->]|]; [|done]. exact Ht.
  - rewrite list_lookup_insert_ne in Hlook by done. by eapply Hinv.
Qed.

Lemma sched_step_done_stays st ev u t :
  st.2 !! u = Some t → task_done t = true → (sched_step st ev).2 !! u = Some t.
Proof.
  destruct st as [r ts]. simpl. intros Hu Hdone. unfold sched_step. simpl.
  destruct (ts !! ev_user ev) as [[deadline| |e]|] eqn:Hev; try done.
  destruct (user_iteration _ _ _ _ _) as [r' t']. simpl.
  destruct (decide (ev_user ev = u)) as [<-|Hne].
  - rewrite Hev in Hu. injection Hu as <-. done.
  - by rewrite list_lookup_insert_ne.
Qed.

Lemma sched_fold_done_stays sched : ∀ st u t,
  st.2 !! u = Some t → task_done t = true →
  (foldl sched_step st sched).2 !! u = Some t.
Proof.
  induction sched as [|ev sched IH]; intros st u t Hu Hdone; [done|].
  simpl. apply IH; [|done]. by apply sched_step_done_stays.
Qed.

Lemma sched_fold_task_inv dl sched : ∀ st,
  task_inv dl st.2 → task_inv dl (foldl sched_step st sched).2.
Proof.
  induction sched as [|ev sched IH]; intros st H; [done|].
  simpl. by apply IH, sched_step_task_inv.
Qed.

Lemma sched_step_length st ev : length (sched_step st ev).2 = length st.2.
Proof.
  destruct st as [r ts]. unfold sched_step. simpl.
  destruct (ts !! ev_user ev) as [[deadline| |e]|]; try done.
  destruct (user_iteration _ _ _ _ _) as [r' t']. simpl.
  apply length_insert.
Qed.

Lemma sched_fold_length sched : ∀ st,
  length (foldl sched_step st sched).2 = length st.2.
Proof.
  induction sched as [|ev sched IH]; intros st; [done|].
  simpl. rewrite IH. apply sched_step_length.
Qed.

(** A turn that ends its user leaves it done: at or after the deadline
    the loop is left, and before it [make_request] raises. *)
Lemma sched_step_ends dl st ev t :
  task_inv dl st.2 → st.2 !! ev_user ev = Some t →
  dl (ev_user ev) <= ev_now ev
  ∨ dispatch (method (config st.1)) = None
  ∨ raises_other (ev_net ev) = true →
  ∃ t', (sched_step st ev).2 !! ev_user ev = Some t' ∧ task_done t' = true.
Proof.
  destruct st as [r ts]. simpl. intros Hinv Hu Hend.
  destruct (Hinv _ _ Hu) as [->|Hdone].
  - assert (task_done (user_iteration r (dl (ev_user ev)) (ev_now ev)
                         (ev_clock ev) (ev_net ev)).2 = true) as Ht.
    { unfold user_iteration.
      destruct (running r && Qltb (ev_now ev) (dl (ev_user ev))) eqn:Hc; [|done].
      apply andb_prop in Hc as [_ Hlt].
      destruct Hend as [Hnow|[Hd|Hnet]].
      - apply Qltb_ge in Hnow. congruence.
      - unfold make_request. by rewrite Hd.
      - unfold make_request. destruct (dispatch _); [|done].
        by destruct (ev_net ev) as [sc text|[]]. }
    unfold sched_step. simpl. rewrite Hu.
    destruct (user_iteration _ _ _ _ _) as [r' t']. simpl in *.
    exists t'. split; [|done].
    apply list_lookup_insert_eq. by eapply lookup_lt_Some.
  - exists t. split; [|done]. by apply sched_step_done_stays.
Qed.

Lemma spawn_users_lookup r env u :
  (u < Z.to_nat (concurrent_users (config r)))%nat →
  spawn_users r env !! u = Some (Looping (deadline_of r env u)).
Proof.
  intros Hu. unfold spawn_users. rewrite list_lookup_fmap.
  by rewrite lookup_seq_lt.
Qed.

Lemma spawn_users_inv r env : task_inv (deadline_of r env) (spawn_users r env).
Proof.
  intros u t. unfold spawn_users. rewrite list_lookup_fmap.
  destruct (seq _ _ !! u) as [v|] eqn:Hv; [|done].
  apply lookup_seq in Hv as [-> _]. intros [= <-]. by left.
Qed.

Lemma length_spawn_users r env :
  length (spawn_users r env) = Z.to_nat (concurrent_users (config r)).
Proof. unfold spawn_users. by rewrite length_fmap, length_seq. Qed.

Lemma run_gather_all_done r env :
  users_end r env → forallb task_done (run_gather r env).2 = true.
Proof.
  intros Hpass. apply forallb_forall. intros t Ht.
  apply list_elem_of_In, list_elem_of_lookup in Ht as [u Hu].
  assert (Hlt : (u < Z.to_nat (concurrent_users (config r)))%nat).
  { apply lookup_lt_Some in Hu. unfold run_gather in Hu.
    rewrite sched_fold_length in Hu. simpl in Hu.
    by rewrite length_spawn_users in Hu. }
  destruct (Hpass u Hlt) as (ev & Hin & <- & Hend).
  apply list_elem_of_split in Hin as (s1 & s2 & Hsched).
  unfold run_gather in Hu. rewrite Hsched, foldl_app in Hu. simpl in Hu.
  set (st1 := foldl sched_step _ s1) in Hu.
  assert (Hinv : task_inv (deadline_of r env) st1.2).
  { apply sched_fold_task_inv. simpl.
    apply (spawn_users_inv (run_begin r env) env). }
  assert (Hcfg : config st1.1 = config r).
  { unfold st1. by destruct (sched_fold_control s1
      (run_begin r env, spawn_users (run_begin r env) env)) as [_ ->]. }
  assert (is_Some (st1.2 !! ev_user ev)) as [t1 Ht1].
  { apply lookup_lt_is_Some. unfold st1.
    rewrite sched_fold_length. simpl. by rewrite length_spawn_users. }
  destruct (sched_step_ends _ st1 ev t1 Hinv Ht1) as (t' & Ht' & Hdone).
  { unfold turn_ends in Hend. by rewrite Hcfg. }
  rewrite (sched_fold_done_stays s2 _ _ _ Ht' Hdone) in Hu.
  by injection Hu as <-.
Qed.

(** *** What make_request records stays recorded *)

Lemma make_request_errors_grow msg r clk net :
  msg ∈ errors (metrics r) → msg ∈ errors (metrics (make_request r clk net).1).
Proof.
  intros H. unfold make_request. destruct (dispatch _); [|done].
  destruct net as [sc text|[]]; simpl; try done.
  - unfold record_response. destruct (is_2xx sc); simpl; set_solver.
  - set_solver.
Qed.

Lemma issued_failure_recorded st ev msg :
  issues st ev = true → failure_message (ev_net ev) = Some msg →
  msg ∈ errors (metrics (sched_step st ev).1).
Proof.
  destruct st as [r ts]. unfold issues, sched_step. simpl.
  destruct (ts !! ev_user ev) as [[deadline| |e]|]; try done.
  intros H Hmsg. apply andb_prop in H as [H Hd]. unfold user_iteration.
  rewrite H. apply bool_decide_eq_true in Hd as [v Hd].
  unfold make_request. rewrite Hd.
  destruct (ev_net ev) as [sc text|[]]; simpl in *; try done.
  - unfold record_response. destruct (is_2xx sc); [done|].
    injection Hmsg as <-. simpl. set_solver.
  - injection Hmsg as <-. set_solver.
Qed.

(** *** The fate of a user depends on its own turns only *)

Lemma user_iteration_own r r' deadline now clk net :
  running r = running r' → config r = config r' →
  (user_iteration r deadline now clk net).2
  = (user_iteration r' deadline now clk net).2.
Proof.
  intros Hrun Hcfg. unfold user_iteration, make_request.
  rewrite Hrun, Hcfg.
  destruct (running r' && Qltb now deadline); [|done].
  destruct (dispatch _); [|done].
  destruct net as [sc text|[]]; done.
Qed.

Lemma sched_step_own st st' ev :
  running st.1 = running st'.1 → config st.1 = config st'.1 →
  st.2 !! ev_user ev = st'.2 !! ev_user ev →
  (sched_step st ev).2 !! ev_user ev = (sched_step st' ev).2 !! ev_user ev.
Proof.
  destruct st as [r ts], st' as [r' ts']. simpl. intros Hrun Hcfg Hu.
  unfold sched_step. simpl. rewrite <- Hu.
  destruct (ts !! ev_user ev) as [[deadline| |e]|] eqn:Hev;
    simpl; try congruence.
  pose proof (user_iteration_own r r' deadline (ev_now ev) (ev_clock ev)
                (ev_net ev) Hrun Hcfg) as Ht.
  destruct (user_iteration r _ _ _ _) as [r1 t1].
  destruct (user_iteration r' _ _ _ _) as [r1' t1']. simpl in *. subst t1'.
  symmetry in Hu.
  rewrite (list_lookup_insert_eq ts) by by eapply lookup_lt_Some.
  by rewrite (list_lookup_insert_eq ts') by by eapply lookup_lt_Some.
Qed.

Lemma sched_step_other st ev u :
  ev_user ev ≠ u → (sched_step st ev).2 !! u = st.2 !! u.
Proof.
  destruct st as [r ts]. intros Hne. unfold sched_step. simpl.
  destruct (ts !! ev_user ev) as [[deadline| |e]|]; try done.
  destruct (user_iteration _ _ _ _ _) as [r' t']. simpl.
  by rewrite list_lookup_insert_ne.
Qed.

Lemma own_turns_decide u sched : ∀ st st',
  running st.1 = running st'.1 → config st.1 = config st'.1 →
  st.2 !! u = st'.2 !! u →
  (foldl sched_step st sched).2 !! u
  = (foldl sched_step st' (own_turns u sched)).2 !! u.
Proof.
  unfold own_turns.
  induction sched as [|ev sched IH]; intros st st' Hrun Hcfg Hu; [done|].
  rewrite filter_cons. destruct (decide (ev_user ev = u)) as [<-|Hne]; simpl.
  - apply IH.
    + destruct (sched_step_control st ev) as [-> _].
      by destruct (sched_step_control st' ev) as [-> _].
    + destruct (sched_step_control st ev) as [_ ->].
      by destruct (sched_step_control st' ev) as [_ ->].
    + by apply sched_step_own.
  - apply IH.
    + by destruct (sched_step_control st ev) as [-> _].
    + by destruct (sched_step_control st ev) as [_ ->].
    + by rewrite sched_step_other.
Qed.

(** *** A user that ended was given a turn that ends it *)

Lemma sched_step_still_loops dl st ev :
  running st.1 = true →
  st.2 !! ev_user ev = Some (Looping (dl (ev_user ev))) →
  (sched_step st ev).2 !! ev_user ev = Some (Looping (dl (ev_user ev)))
  ∨ dl (ev_user ev) <= ev_now ev
  ∨ dispatch (method (config st.1)) = None
  ∨ raises_other (ev_net ev) = true.
Proof.
  destruct st as [r ts]. simpl. intros Hrun Hu.
  unfold sched_step. simpl. rewrite Hu. unfold user_iteration. rewrite Hrun.
  simpl. destruct (Qltb (ev_now ev) (dl (ev_user ev))) eqn:Hlt.
  - unfold make_request. destruct (dispatch _); [|by right; right; left].
    destruct (ev_net ev) as [sc text|[]]; simpl;
      try (by right; right; right);
      left; apply list_lookup_insert_eq; by eapply lookup_lt_Some.
  - right. left. destruct (Qlt_le_dec (ev_now ev) (dl (ev_user ev))) as [H|H];
      [|done]. apply Qltb_lt in H. congruence.
Qed.

Lemma done_has_ending_turn dl cfg u sched : ∀ st,
  running st.1 = true → config st.1 = cfg →
  st.2 !! u = Some (Looping (dl u)) →
  (∃ t, (foldl sched_step st sched).2 !! u = Some t ∧ task_done t = true) →
  ∃ ev, ev ∈ sched ∧ ev_user ev = u
        ∧ (dl u <= ev_now ev
           ∨ dispatch (method cfg) = None
           ∨ raises_other (ev_net ev) = true).
Proof.
  induction sched as [|ev sched IH]; intros st Hrun Hcfg Hu (t & Ht & Hdone).
  - simpl in Ht. rewrite Hu in Ht. by injection Ht as <-.
  - simpl in Ht.
    assert (Hnext : (sched_step st ev).2 !! u = Some (Looping (dl u)) →
              ∃ ev0, ev0 ∈ ev :: sched ∧ ev_user ev0 = u
                     ∧ (dl u <= ev_now ev0
                        ∨ dispatch (method cfg) = None
                        ∨ raises_other (ev_net ev0) = true)).
    { intros Hu'. destruct (IH (sched_step st ev)) as (ev0 & Hin & Hev0).
      - by destruct (sched_step_control st ev) as [-> _].
      - by destruct (sched_step_control st ev) as [_ ->].
      - exact Hu'.
      - by exists t.
      - exists ev0. split; [by apply list_elem_of_further|done]. }
    destruct (decide (ev_user ev = u)) as [Heq|Hne].
    + subst u. destruct (sched_step_still_loops dl st ev Hrun Hu) as [Hl|Hend].
      * by apply Hnext.
      * exists ev. split; [apply list_elem_of_here|]. split; [done|].
        by rewrite <- Hcfg.
    + apply Hnext. by rewrite sched_step_other.
Qed.

(** With no interrupt, [run_test] returns exactly in the runs in which
    every virtual user ends. *)
Lemma run_test_returns_iff r env :
  interrupt env = None → is_Some (run_test r env) ↔ users_end r env.
Proof.
  intros Hnone. split.
  - intros [x Hx] u Hu. unfold run_test in Hx. rewrite Hnone in Hx.
    destruct (forallb task_done (run_gather r env).2) eqn:Hall; [|done].
    assert (is_Some ((run_gather r env).2 !! u)) as [t Ht].
    { apply lookup_lt_is_Some. unfold run_gather.
      rewrite sched_fold_length. simpl. by rewrite length_spawn_users. }
    destruct (done_has_ending_turn (deadline_of r env) (config r) u
                (schedule env)
                (run_begin r env, spawn_users (run_begin r env) env))
      as (ev & Hin & Hev & Hend);
      [done|done| | |exists ev; unfold turn_ends; by rewrite Hev].
    + simpl. by apply (spawn_users_lookup (run_begin r env) env).
    + exists t. split; [exact Ht|].
      rewrite forallb_forall in Hall. apply Hall.
      apply list_elem_of_In. by eapply list_elem_of_lookup_2.
  - intros Hend. unfold run_test. rewrite Hnone.
    by rewrite (run_gather_all_done r env Hend).
Qed.

End Run.

(** C8, as the code has it. Unless the coroutine itself is cancelled,
    [run_test] returns the metrics of the runner once every virtual user
    has ended (by leaving its loop at its deadline, or by an exception out
    of [make_request]), with the [running] flag cleared: no exception of a
    user reaches it. Every failure that [make_request] records (a response
    outside [200,300), a transport failure) is in the returned error list,
    and so is an exception raised out of the [try] body. What becomes of a
    user is decided by its own turns alone, whatever happens to the
    others. *)
Theorem run_test_tolerates_failures (r : LoadRunner) (env : run_env) :
  (∀ e, interrupt env = Some e → is_Exception e = true) →
  (interrupt env = None → users_end r env) →
  ∃ r' m,
    run_test r env = Some (r', Return m)
    ∧ m = metrics r'
    ∧ running r' = false
    ∧ (∀ s1 ev s2 msg,
         schedule env = s1 ++ ev :: s2 →
         issues (foldl sched_step
                   (run_begin r env, spawn_users (run_begin r env) env) s1) ev
           = true →
         failure_message (ev_net ev) = Some msg →
         msg ∈ errors m)
    ∧ (∀ e, interrupt env = Some e → "Test error: " +:+ str_exn e ∈ errors m)
    ∧ (∀ u, (run_gather r env).2 !! u
            = (foldl sched_step
                 (run_begin r env, spawn_users (run_begin r env) env)
                 (own_turns u (schedule env))).2 !! u).
Proof.
  intros Hexc Hpass.
  assert (Hrec : ∀ s1 ev s2 msg,
            schedule env = s1 ++ ev :: s2 →
            issues (foldl sched_step
                      (run_begin r env, spawn_users (run_begin r env) env) s1) ev
              = true →
            failure_message (ev_net ev) = Some msg →
            msg ∈ errors (metrics (run_gather r env).1)).
  { intros s1 ev s2 msg Hsched Hiss Hmsg. unfold run_gather.
    rewrite Hsched, foldl_app. simpl.
    apply (schedule_preserves (λ r, msg ∈ errors (metrics r))).
    - intros r0 clk net. apply make_request_errors_grow.
    - by apply issued_failure_recorded. }
  assert (Hown : ∀ u, (run_gather r env).2 !! u
            = (foldl sched_step
                 (run_begin r env, spawn_users (run_begin r env) env)
                 (own_turns u (schedule env))).2 !! u).
  { intros u. unfold run_gather. by apply own_turns_decide. }
  unfold run_test. destruct (interrupt env) as [e|] eqn:Hint.
  - rewrite (Hexc e eq_refl). eexists _, _. split; [done|].
    split; [done|]. split; [done|]. split; [|split; [|done]]; simpl.
    + intros s1 ev s2 msg H1 H2 H3.
      apply elem_of_app. left. by eapply Hrec.
    + intros e' [= <-]. apply elem_of_app. right. by left.
  - rewrite (run_gather_all_done r env (Hpass eq_refl)).
    eexists _, _. split; [done|].
    split; [done|]. split; [done|]. split; [|split; [done|done]]; simpl.
    intros s1 ev s2 msg H1 H2 H3. by eapply Hrec.
Qed.

(** One user is ended at its first turn by an exception out of
    [make_request], the other leaves its loop at its deadline. *)
Lemma run_test_tolerates_failures_witness :
  ∃ r' m,
    run_test (new_LoadRunner demo_config) mixed_env = Some (r', Return m)
    ∧ m = metrics r'
    ∧ running r' = false
    ∧ errors m = ["HTTP 500: boom"]
    ∧ (run_gather (new_LoadRunner demo_config) mixed_env).2
      = [Failed (OtherException "Invalid URL"); Finished].
Proof.
  destruct (run_test_tolerates_failures (new_LoadRunner demo_config) mixed_env)
    as (r' & m & Hrun & Hm & Hflag & _).
  - intros e H. discriminate H.
  - intros _ [|[|u]] Hu.
    + exists (mkEvent 0 (1 # 10) (demo_clock (1 # 10) (2 # 10))
                (NetRaises (OtherException "Invalid URL"))).
      split; [apply list_elem_of_here|]. split; [reflexivity|].
      right. right. reflexivity.
    + exists (mkEvent 1 (21 # 10) (demo_clock 0 0) (NetResponse 200 "late")).
      split; [|split; [reflexivity|left; discriminate]].
      do 2 apply list_elem_of_further. apply list_elem_of_here.
    + vm_compute in Hu. lia.
  - exists r', m. split; [exact Hrun|]. split; [exact Hm|]. split; [exact Hflag|].
    split; [|vm_compute; reflexivity].
    vm_compute in Hrun. injection Hrun as _ <-. reflexivity.
Defined.

(** C8 as stated fails: with the method HEAD, which the schema layer
    accepts, every user ends with the [ValueError] of [make_request];
    [run_test] returns metrics whose error list is empty. And a run that is
    cancelled while [gather] is awaited leaves [run_test] by
    [CancelledError]. *)
Lemma user_failure_not_annotated :
  let r := with_method (new_LoadRunner demo_config) "HEAD" in
  Schemas.validate_method "HEAD" = Return "HEAD"
  ∧ (run_gather r demo_env).2
    = [Failed (ValueError "Unsupported HTTP method: HEAD");
       Failed (ValueError "Unsupported HTTP method: HEAD")]
  ∧ (∃ r' m,
       run_test r demo_env = Some (r', Return m)
       ∧ errors m = []
       ∧ total_requests m = 0)
  ∧ ∃ r',
      run_test (new_LoadRunner demo_config) (Executor.py cancelled_env)
      = Some (r', Raise CancelledError).
Proof.
  split; [reflexivity|]. split; [vm_compute; reflexivity|]. split.
  - eexists _, _. split; [vm_compute; reflexivity|]. split; reflexivity.
  - eexists. vm_compute. reflexivity.
Qed.

(** * Further properties of the load generator *)

Section RateLimit.

Local Open Scope Q_scope.

Lemma request_interval_positive cfg : 0 < request_interval (new_LoadRunner cfg).
Proof.
  unfold new_LoadRunner. simpl.
  destruct (Z.ltb_spec 0 (max_rps cfg)) as [H|H]; [|reflexivity].
  apply Qlt_shift_div_l; [|reflexivity].
  change 0 with (inject_Z 0). by rewrite <- Zlt_Qlt.
Qed.

Lemma make_request_interval r clk net :
  request_interval (make_request r clk net).1 = request_interval r.
Proof.
  unfold make_request. destruct (dispatch _); [|done].
  destruct net as [sc text|[]]; done.
Qed.

Lemma after_attempts_interval l : ∀ r,
  request_interval (after_attempts r l) = request_interval r.
Proof.
  induction l as [|a l IH]; intros r; [done|]. simpl.
  unfold after_attempts in IH. rewrite IH. apply make_request_interval.
Qed.

End RateLimit.

(** X1. The interval between requests that [LoadRunner.__init__] derives
    from [max_rps] is positive for every configuration: the reciprocal of
    a positive [max_rps], and 0.1 s when [max_rps] is zero or negative; no
    call of [make_request] changes it. *)
Theorem request_interval_of_config (cfg : LoadTestConfig) (l : list attempt) :
  let r := after_attempts (new_LoadRunner cfg) l in
  (0 < request_interval r)%Q
  ∧ (0 < max_rps cfg → (request_interval r * inject_Z (max_rps cfg) == 1)%Q)
  ∧ (max_rps cfg ≤ 0 → request_interval r = (1 # 10)%Q).
Proof.
  intros r. unfold r. rewrite after_attempts_interval.
  split; [apply request_interval_positive|]. unfold new_LoadRunner. simpl. split.
  - intros H. destruct (Z.ltb_spec 0 (max_rps cfg)); [|lia].
    field. intros Hz. unfold Qeq in Hz. simpl in Hz. lia.
  - intros H. by destruct (Z.ltb_spec 0 (max_rps cfg)); [lia|].
Qed.

Lemma request_interval_of_config_witness :
  (request_interval (new_LoadRunner demo_config) * inject_Z 10 == 1)%Q.
Proof.
  refine (proj1 (proj2 (request_interval_of_config demo_config [])) _).
  reflexivity.
Defined.

(** X2. The rate-limiting prologue of [make_request]: when it sleeps, the
    delay is positive and ends exactly one interval after the stamp of the
    last response; when it does not sleep, at least one interval has passed
    since that stamp. If the clock has not gone back behind the stamp the
    delay is at most one interval. *)
Theorem rate_limit_delay_spec (r : LoadRunner) (now : Q) :
  match rate_limit_delay r now with
  | Some d =>
      (0 < d)%Q
      ∧ (now + d == last_request_time r + request_interval r)%Q
      ∧ ((last_request_time r <= now)%Q → (d <= request_interval r)%Q)
  | None => (last_request_time r + request_interval r <= now)%Q
  end.
Proof.
  unfold rate_limit_delay.
  destruct (Qltb _ _) eqn:H.
  - apply Qltb_lt in H. split; [lra|]. split; [ring|]. intros Hle. lra.
  - apply Qltb_ge in H. lra.
Qed.

Section Tallies.

Lemma tally_cons p a l : tally p (a :: l) = (if p a then 1 else 0) + tally p l.
Proof. unfold tally. simpl. destruct (p a); simpl; lia. Qed.

Lemma tally_nonneg p l : 0 ≤ tally p l.
Proof. unfold tally. lia. Qed.

Lemma make_request_config r clk net : config (make_request r clk net).1 = config r.
Proof.
  unfold make_request. destruct (dispatch _); [|done].
  destruct net as [sc text|[]]; done.
Qed.

(** The counters after one issued call. *)
Lemma make_request_counters r v a :
  dispatch (method (config r)) = Some v →
  let m := metrics r in
  let m' := metrics (make_request r a.1 a.2).1 in
  total_requests m'
    = total_requests m + (if answered a then 1 else 0)
      + (if transport_failed a then 1 else 0)
  ∧ successful_requests m'
    = successful_requests m + (if succeeded a then 1 else 0)
  ∧ failed_requests m'
    = failed_requests m
      + ((if answered a then 1 else 0) - (if succeeded a then 1 else 0))
      + (if transport_failed a then 1 else 0).
Proof.
  intros Hd. destruct a as [clk net]. unfold make_request. rewrite Hd.
  unfold answered, succeeded, transport_failed. simpl.
  destruct net as [sc text|[]]; simpl; try lia.
  unfold record_response. destruct (is_2xx sc); simpl; lia.
Qed.

Lemma after_attempts_counters v l : ∀ r,
  dispatch (method (config r)) = Some v →
  let m := metrics r in
  let m' := metrics (after_attempts r l) in
  total_requests m'
    = total_requests m + tally answered l + tally transport_failed l
  ∧ successful_requests m' = successful_requests m + tally succeeded l
  ∧ failed_requests m'
    = failed_requests m + (tally answered l - tally succeeded l)
      + tally transport_failed l.
Proof.
  induction l as [|a l IH]; intros r Hd.
  - unfold tally. simpl. lia.
  - cbn zeta. rewrite !tally_cons.
    destruct (IH (make_request r a.1 a.2).1) as (H1 & H2 & H3).
    { by rewrite make_request_config. }
    destruct (make_request_counters r v a Hd) as (G1 & G2 & G3).
    cbn zeta in *. unfold after_attempts in *. simpl.
    rewrite H1, H2, H3, G1, G2, G3. lia.
Qed.

Lemma after_attempts_unsupported l : ∀ r,
  dispatch (method (config r)) = None → after_attempts r l = r.
Proof.
  induction l as [|a l IH]; intros r Hd; [done|].
  unfold after_attempts in *. simpl.
  unfold make_request at 2. rewrite Hd. simpl. by apply IH.
Qed.

End Tallies.

(** X3. What the counters count. After any trace of calls with a method
    that the chain of [make_request] knows, [total_requests] is the number
    of responses plus the number of transport failures,
    [successful_requests] is the number of responses with a status in
    [200,300) and [failed_requests] is the rest; a call that ends in any
    other exception is counted nowhere. With a method the chain does not
    know, the runner stays as it was. *)
Theorem counters_count_attempts (cfg : LoadTestConfig) (l : list attempt) :
  let r := after_attempts (new_LoadRunner cfg) l in
  match dispatch (method cfg) with
  | Some _ =>
      total_requests (metrics r) = tally answered l + tally transport_failed l
      ∧ successful_requests (metrics r) = tally succeeded l
      ∧ failed_requests (metrics r)
        = (tally answered l - tally succeeded l) + tally transport_failed l
  | None => r = new_LoadRunner cfg
  end.
Proof.
  intros r. destruct (dispatch (method cfg)) as [v|] eqn:Hd.
  - destruct (after_attempts_counters v l (new_LoadRunner cfg) Hd) as (H1 & H2 & H3).
    cbn zeta in *. unfold r. rewrite H1, H2, H3. simpl. lia.
  - by apply after_attempts_unsupported.
Qed.

Lemma rate_limit_delay_spec_witness :
  let r := set_last_request_time (new_LoadRunner demo_config) (3 # 10) in
  ∃ d, rate_limit_delay r (35 # 100) = Some d ∧ (d <= request_interval r)%Q.
Proof.
  intros r. pose proof (rate_limit_delay_spec r (35 # 100)) as H.
  destruct (rate_limit_delay r (35 # 100)) as [d|] eqn:E;
    [|vm_compute in E; discriminate].
  exists d. split; [reflexivity|].
  apply H. unfold Qle. simpl. lia.
Defined.

Section Invariants.

Lemma make_request_tallied r clk net :
  tallied (metrics r) → tallied (metrics (make_request r clk net).1).
Proof.
  intros (Hc & Hs & Hf & Hl). unfold tallied, consistent in *.
  unfold make_request. destruct (dispatch _); [|done].
  destruct net as [sc text|[]]; simpl; try done.
  - unfold record_response. destruct (is_2xx sc); simpl;
      rewrite length_app; simpl; lia.
  - rewrite length_app. simpl. lia.
Qed.

Lemma make_request_errors_length r clk net :
  Z.of_nat (length (errors (metrics r))) = failed_requests (metrics r) →
  Z.of_nat (length (errors (metrics (make_request r clk net).1)))
  = failed_requests (metrics (make_request r clk net).1).
Proof.
  intros H. unfold make_request. destruct (dispatch _); [|done].
  destruct net as [sc text|[]]; simpl; try done.
  - unfold record_response. destruct (is_2xx sc); simpl; [done|].
    rewrite length_app. simpl. lia.
  - rewrite length_app. simpl. lia.
Qed.

Lemma after_attempts_preserves (P : LoadRunner → Prop) :
  (∀ r clk net, P r → P (make_request r clk net).1) →
  ∀ l r, P r → P (after_attempts r l).
Proof.
  intros Hmk l. induction l as [|a l IH]; intros r H; [done|].
  apply IH, Hmk, H.
Qed.

Lemma new_LoadRunner_tallied cfg : tallied (metrics (new_LoadRunner cfg)).
Proof. unfold tallied, consistent. simpl. lia. Qed.

(** The metrics that [run_test] returns are those of the runner it leaves. *)
Lemma run_test_preserves (P : TestMetrics → Prop) r env r' m :
  (∀ r clk net, P (metrics r) → P (metrics (make_request r clk net).1)) →
  (∀ m t, P m → P (set_start_time m t)) →
  (∀ m t, P m → P (set_end_time m t)) →
  (interrupt env = None ∨ ∀ m msg, P m → P (add_error m msg)) →
  P (metrics r) →
  run_test r env = Some (r', Return m) →
  m = metrics r' ∧ P m.
Proof.
  intros Hmk Hstart Hend Hadd H. unfold run_test, run_gather.
  pose proof (schedule_preserves (λ r, P (metrics r)) Hmk (schedule env)
                (run_begin r env, spawn_users (run_begin r env) env)
                (Hstart _ _ H)) as Hst.
  destruct (foldl sched_step _ _) as [r2 ts]. simpl in *.
  destruct (interrupt env) as [e|].
  - destruct (is_Exception e); intros [= <- <-]. split; [done|]. simpl.
    destruct Hadd as [?|Hadd]; [done|]. by apply Hend, Hadd.
  - destruct (forallb task_done ts); intros [= <- <-].
    split; [done|]. by apply Hend.
Qed.

End Invariants.

(** X4. The lists follow the counters. After any trace of calls of
    [make_request] on a fresh runner, [response_times] holds one latency per
    counted request and [errors] one entry per failed request, and the
    counters satisfy [0 <= successful_requests <= total_requests]. *)
Theorem lists_follow_counters (cfg : LoadTestConfig) (l : list attempt) :
  let m := metrics (after_attempts (new_LoadRunner cfg) l) in
  Z.of_nat (length (response_times m)) = total_requests m
  ∧ Z.of_nat (length (errors m)) = failed_requests m
  ∧ 0 ≤ successful_requests m ≤ total_requests m.
Proof.
  intros m.
  destruct (after_attempts_preserves (λ r, tallied (metrics r))
              make_request_tallied l (new_LoadRunner cfg)
              (new_LoadRunner_tallied cfg)) as (Hc & Hs & Hf & Hl).
  pose proof (after_attempts_preserves
                (λ r, Z.of_nat (length (errors (metrics r)))
                      = failed_requests (metrics r))
                make_request_errors_length l (new_LoadRunner cfg) eq_refl) as He.
  unfold consistent in Hc. fold m in Hc, Hs, Hf, Hl, He.
  split; [done|]. split; [done|]. lia.
Qed.

Section Histogram.

Lemma make_request_histogram r v a sc :
  dispatch (method (config r)) = Some v →
  let codes := status_codes (metrics r) in
  let codes' := status_codes (metrics (make_request r a.1 a.2).1) in
  default 0 (codes' !! sc)
    = default 0 (codes !! sc) + (if answered_with sc a then 1 else 0)
  ∧ (codes' !! sc = None ↔ codes !! sc = None ∧ answered_with sc a = false).
Proof.
  intros Hd. destruct a as [clk net]. unfold make_request. rewrite Hd.
  unfold answered_with. simpl.
  destruct net as [sc' text|[]]; simpl; try (split; [lia|intuition (discriminate || congruence)]).
  assert (Hcodes : status_codes (record_response (metrics r) sc' text
                                   ((t_done clk - t_start clk) * 1000)%Q)
                   = <[sc' := default 0 (status_codes (metrics r) !! sc') + 1]>
                       (status_codes (metrics r))).
  { unfold record_response. by destruct (is_2xx sc'). }
  rewrite Hcodes. destruct (Z.eqb_spec sc' sc) as [->|Hne].
  - rewrite lookup_insert_eq. simpl. split; [lia|intuition (discriminate || congruence)].
  - rewrite lookup_insert_ne by done. split; [lia|intuition (discriminate || congruence)].
Qed.

Lemma after_attempts_histogram v sc l : ∀ r,
  dispatch (method (config r)) = Some v →
  let codes := status_codes (metrics r) in
  let codes' := status_codes (metrics (after_attempts r l)) in
  default 0 (codes' !! sc) = default 0 (codes !! sc) + tally (answered_with sc) l
  ∧ (codes' !! sc = None ↔ codes !! sc = None ∧ tally (answered_with sc) l = 0).
Proof.
  induction l as [|a l IH]; intros r Hd.
  - unfold tally. simpl. split; [lia|intuition (discriminate || congruence)].
  - cbn zeta. rewrite tally_cons.
    destruct (IH (make_request r a.1 a.2).1) as [H1 H2].
    { by rewrite make_request_config. }
    destruct (make_request_histogram r v a sc Hd) as [G1 G2].
    cbn zeta in *. unfold after_attempts in *. simpl.
    rewrite H1, G1. split; [lia|]. rewrite H2, G2.
    pose proof (tally_nonneg (answered_with sc) l).
    destruct (answered_with sc a); intuition (try discriminate; try lia).
Qed.

End Histogram.

(** X5. The histogram counts responses by status. After any trace of
    issued calls on a fresh runner, [status_codes] has an entry for a
    status exactly when some response carried it, and the entry is the
    number of those responses; transport failures and other exceptions
    leave no entry. *)
Theorem histogram_counts_statuses (cfg : LoadTestConfig) (l : list attempt)
    (v : verb) (sc : Z) :
  dispatch (method cfg) = Some v →
  status_codes (metrics (after_attempts (new_LoadRunner cfg) l)) !! sc
  = if tally (answered_with sc) l =? 0 then None
    else Some (tally (answered_with sc) l).
Proof.
  intros Hd.
  destruct (after_attempts_histogram v sc l (new_LoadRunner cfg) Hd) as [H1 H2].
  cbn zeta in *. change (status_codes (metrics (new_LoadRunner cfg))) with
    (∅ : gmap Z Z) in *. rewrite lookup_empty in *. simpl in H1.
  destruct (Z.eqb_spec (tally (answered_with sc) l) 0) as [H0|H0].
  - apply H2. done.
  - destruct (_ !! sc) as [n|] eqn:E.
    + simpl in H1. by rewrite H1.
    + destruct H0. by apply H2.
Qed.

Lemma histogram_counts_statuses_witness :
  status_codes (metrics demo_runner) !! 500 = Some 1
  ∧ status_codes (metrics demo_runner) !! 404 = None.
Proof.
  split.
  - exact (histogram_counts_statuses demo_config _ GET 500 eq_refl).
  - exact (histogram_counts_statuses demo_config _ GET 404 eq_refl).
Defined.

Section Reports.

Local Open Scope Q_scope.

(** What [generate_report] returns, field by field. *)
Lemma generate_report_shape r :
  match response_times (metrics r) with
  | [] => generate_report r = Return (ReportError "No metrics collected")
  | _ :: _ =>
      ∃ rep,
        generate_report r = Return (ReportOk rep)
        ∧ Report.errors rep = take 10 (errors (metrics r))
        ∧ Report.errors_count rep = length (errors (metrics r))
        ∧ Report.status_codes rep = status_codes (metrics r)
        ∧ Report.failed_requests (Report.metrics rep) = failed_requests (metrics r)
        ∧ Report.error_rate_percent (Report.metrics rep)
          = round2 (if (0 <? total_requests (metrics r))%Z
                    then inject_Z (failed_requests (metrics r))
                         / inject_Z (total_requests (metrics r)) * 100
                    else 0)
        ∧ Report.throughput_rps (Report.metrics rep)
          = round2 (if Qltb 0 (Report.duration_seconds (Report.execution rep))
                    then inject_Z (total_requests (metrics r))
                         / Report.duration_seconds (Report.execution rep)
                    else 0)
  end.
Proof.
  unfold generate_report.
  destruct (response_times (metrics r)) as [|x l]; [done|].
  set (ts := sorted (x :: l)).
  assert (Hn : (0 < length ts)%nat).
  { unfold ts. rewrite length_sorted. simpl. lia. }
  destruct (pct_index_order (length ts) Hn) as (H1 & H2 & H3).
  destruct (lookup_lt_is_Some_2 ts (pct_index (length ts) (1 # 2)))
    as [p50 H50]; [lia|].
  destruct (lookup_lt_is_Some_2 ts (pct_index (length ts) (95 # 100)))
    as [p95 H95]; [lia|].
  destruct (lookup_lt_is_Some_2 ts (pct_index (length ts) (99 # 100)))
    as [p99 H99]; [lia|].
  unfold index. rewrite H50. simpl. rewrite H95. simpl. rewrite H99. simpl.
  eexists. split; [reflexivity|]. simpl. done.
Qed.

Lemma round2_nonneg q : 0 <= q → 0 <= round2 q.
Proof.
  intros H. apply Qle_trans with (round2 0); [|by apply round2_mono].
  vm_compute. discriminate.
Qed.

Lemma round2_le_100 q : q <= 100 → round2 q <= 100.
Proof.
  intros H. apply Qle_trans with (round2 100); [by apply round2_mono|].
  vm_compute. discriminate.
Qed.

Lemma ratio_bounds (f t : Z) :
  (0 ≤ f ≤ t)%Z → (0 < t)%Z →
  0 <= inject_Z f / inject_Z t * 100 ∧ inject_Z f / inject_Z t * 100 <= 100.
Proof.
  intros Hf Ht.
  assert (Ht' : 0 < inject_Z t).
  { change 0 with (inject_Z 0). by rewrite <- Zlt_Qlt. }
  assert (H0 : 0 <= inject_Z f / inject_Z t).
  { apply Qle_shift_div_l; [done|]. rewrite Qmult_0_l.
    change 0 with (inject_Z 0). rewrite <- Zle_Qle. lia. }
  assert (H1 : inject_Z f / inject_Z t <= 1).
  { apply Qle_shift_div_r; [done|]. rewrite Qmult_1_l. rewrite <- Zle_Qle. lia. }
  split; lra.
Qed.

Lemma throughput_nonneg (t : Z) (d : Q) :
  (0 ≤ t)%Z → 0 <= (if Qltb 0 d then inject_Z t / d else 0).
Proof.
  intros Ht. destruct (Qltb 0 d) eqn:Hd; [|apply Qle_refl].
  apply Qltb_lt in Hd. apply Qle_shift_div_l; [done|]. rewrite Qmult_0_l.
  change 0 with (inject_Z 0). rewrite <- Zle_Qle. lia.
Qed.

Lemma set_start_time_tallied m t : tallied m → tallied (set_start_time m t).
Proof. done. Qed.

Lemma set_end_time_tallied m t : tallied m → tallied (set_end_time m t).
Proof. done. Qed.

Lemma add_error_tallied m msg : tallied m → tallied (add_error m msg).
Proof. done. Qed.

End Reports.

(** X6. [generate_report] raises for no runner: none of its three indices
    is ever out of range. For a runner reached from a fresh one by calls of
    [make_request] it answers "No metrics collected" exactly when no request
    has been counted, and otherwise builds the full report; there is no
    division by zero. *)
Theorem report_or_no_data (cfg : LoadTestConfig) (l : list attempt) :
  let r := after_attempts (new_LoadRunner cfg) l in
  (∀ r0, ∃ x, generate_report r0 = Return x)
  ∧ (generate_report r = Return (ReportError "No metrics collected")
     ↔ total_requests (metrics r) = 0)
  ∧ ((∃ rep, generate_report r = Return (ReportOk rep))
     ↔ 0 < total_requests (metrics r)).
Proof.
  intros r. split.
  { intros r0. pose proof (generate_report_shape r0) as H.
    destruct (response_times (metrics r0)); [eauto|].
    destruct H as (rep & H & _). eauto. }
  destruct (after_attempts_preserves (λ r, tallied (metrics r))
              make_request_tallied l (new_LoadRunner cfg)
              (new_LoadRunner_tallied cfg)) as (_ & _ & _ & Hl).
  fold r in Hl. pose proof (generate_report_shape r) as H.
  destruct (response_times (metrics r)) as [|x ts]; simpl in Hl.
  - rewrite H. split; [done|]. split; [intros [rep [=]]|lia].
  - destruct H as (rep & H & _). rewrite H. split.
    + split; [intros [=]|lia].
    + split; [lia|eauto].
Qed.

(** X7. In the report of any run of [run_test] on a fresh runner the error
    rate lies between 0 and 100 and the throughput is not negative. *)
Theorem report_rates_bounded (cfg : LoadTestConfig) (env : run_env)
    (r' : LoadRunner) (m : TestMetrics) (rep : Report.t) :
  run_test (new_LoadRunner cfg) env = Some (r', Return m) →
  generate_report r' = Return (ReportOk rep) →
  (0 <= Report.error_rate_percent (Report.metrics rep))%Q
  ∧ (Report.error_rate_percent (Report.metrics rep) <= 100)%Q
  ∧ (0 <= Report.throughput_rps (Report.metrics rep))%Q.
Proof.
  intros Hrun Hrep.
  destruct (run_test_preserves tallied _ _ _ _ make_request_tallied
              set_start_time_tallied set_end_time_tallied
              (or_intror add_error_tallied) (new_LoadRunner_tallied cfg) Hrun)
    as [-> (Hc & Hs & Hf & Hl)].
  pose proof (generate_report_shape r') as H.
  destruct (response_times (metrics r')); [by rewrite H in Hrep|].
  destruct H as (rep' & H & _ & _ & _ & _ & Hrate & Hthr).
  rewrite H in Hrep. injection Hrep as ->. rewrite Hrate, Hthr.
  unfold consistent in Hc. split; [|split].
  - apply round2_nonneg. destruct (Z.ltb_spec 0 (total_requests (metrics r')));
      [|apply Qle_refl]. apply ratio_bounds; lia.
  - apply round2_le_100. destruct (Z.ltb_spec 0 (total_requests (metrics r')));
      [|unfold Qle; simpl; lia]. apply ratio_bounds; lia.
  - apply round2_nonneg, throughput_nonneg. lia.
Qed.

Lemma report_rates_bounded_witness :
  ∃ rep,
    (0 <= Report.error_rate_percent (Report.metrics rep))%Q
    ∧ (Report.error_rate_percent (Report.metrics rep) <= 100)%Q
    ∧ (0 <= Report.throughput_rps (Report.metrics rep))%Q
    ∧ Report.failed_requests (Report.metrics rep) = 2.
Proof.
  destruct (run_test (new_LoadRunner demo_config) demo_env)
    as [[r' [m|e]]|] eqn:Hrun; [|vm_compute in Hrun; discriminate..].
  destruct (generate_report r') as [[msg|rep]|e] eqn:Hrep.
  2:{ exists rep.
      destruct (report_rates_bounded demo_config demo_env r' m rep Hrun Hrep)
        as (H1 & H2 & H3).
      split; [exact H1|]. split; [exact H2|]. split; [exact H3|].
      vm_compute in Hrun. injection Hrun as <- _.
      vm_compute in Hrep. injection Hrep as <-. reflexivity. }
  all: vm_compute in Hrun; injection Hrun as <- _;
       vm_compute in Hrep; discriminate.
Defined.

(** X8. The error section of a report. For a run of [run_test] on a fresh
    runner that nothing interrupted, [errors_count] is the number of failed
    requests and [errors] lists the first ten of the recorded messages, in
    the order in which they were recorded. *)
Theorem report_lists_first_errors (cfg : LoadTestConfig) (env : run_env)
    (r' : LoadRunner) (m : TestMetrics) (rep : Report.t) :
  interrupt env = None →
  run_test (new_LoadRunner cfg) env = Some (r', Return m) →
  generate_report r' = Return (ReportOk rep) →
  Z.of_nat (Report.errors_count rep) = Report.failed_requests (Report.metrics rep)
  ∧ Report.errors rep = take 10 (errors m)
  ∧ length (Report.errors rep) = Nat.min 10 (Report.errors_count rep).
Proof.
  intros Hnone Hrun Hrep.
  destruct (run_test_preserves
              (λ m, Z.of_nat (length (errors m)) = failed_requests m)
              (new_LoadRunner cfg) env r' m make_request_errors_length
              (λ _ _ H, H) (λ _ _ H, H) (or_introl Hnone) eq_refl Hrun)
    as [-> He].
  pose proof (generate_report_shape r') as H.
  destruct (response_times (metrics r')); [by rewrite H in Hrep|].
  destruct H as (rep' & H & Herrs & Hcount & _ & Hfailed & _).
  rewrite H in Hrep. injection Hrep as ->.
  rewrite Herrs, Hcount, Hfailed, length_take. done.
Qed.

Lemma report_lists_first_errors_witness :
  ∃ rep,
    Z.of_nat (Report.errors_count rep) = 2
    ∧ Report.errors rep = ["HTTP 500: boom"; "Request error: connection refused"].
Proof.
  destruct (run_test (new_LoadRunner demo_config) demo_env)
    as [[r' [m|e]]|] eqn:Hrun; [|vm_compute in Hrun; discriminate..].
  destruct (generate_report r') as [[msg|rep]|e] eqn:Hrep.
  2:{ exists rep.
      destruct (report_lists_first_errors demo_config demo_env r' m rep eq_refl
                  Hrun Hrep) as (H1 & H2 & _).
      rewrite H1, H2.
      vm_compute in Hrun. injection Hrun as <- <-.
      vm_compute in Hrep. injection Hrep as <-. split; reflexivity. }
  all: vm_compute in Hrun; injection Hrun as <- _;
       vm_compute in Hrep; discriminate.
Defined.

Section NoUsers.

Lemma sched_fold_no_tasks sched : ∀ r, foldl sched_step (r, []) sched = (r, []).
Proof. induction sched as [|ev sched IH]; intros r; [done|]. simpl. apply IH. Qed.

Lemma spawn_no_users r env :
  concurrent_users (config r) ≤ 0 → spawn_users r env = [].
Proof.
  intros H. unfold spawn_users.
  replace (Z.to_nat (concurrent_users (config r))) with 0%nat by lia. done.
Qed.

End NoUsers.

(** X9. A run without users. When [concurrent_users] is zero or negative,
    [range] is empty: [run_test] creates no task and, unless interrupted,
    returns at once whatever the event loop does, with the metrics it
    started from; on a fresh runner the report is then "No metrics
    collected". *)
Theorem run_without_users (cfg : LoadTestConfig) (env : run_env) :
  concurrent_users cfg ≤ 0 →
  interrupt env = None →
  ∃ r',
    run_test (new_LoadRunner cfg) env = Some (r', Return (metrics r'))
    ∧ total_requests (metrics r') = 0
    ∧ errors (metrics r') = []
    ∧ running r' = false
    ∧ generate_report r' = Return (ReportError "No metrics collected").
Proof.
  intros Hn Hnone. unfold run_test, run_gather. rewrite Hnone.
  rewrite spawn_no_users by done. rewrite sched_fold_no_tasks.
  exists (run_finally (run_begin (new_LoadRunner cfg) env) env). done.
Qed.

Lemma run_without_users_witness :
  ∃ r',
    run_test
      (new_LoadRunner (new_LoadTestConfig "http://x/health" "GET" None "" "" 0 2 10 30))
      demo_env
    = Some (r', Return (metrics r'))
    ∧ generate_report r' = Return (ReportError "No metrics collected").
Proof.
  destruct (run_without_users
              (new_LoadTestConfig "http://x/health" "GET" None "" "" 0 2 10 30)
              demo_env) as (r' & H1 & _ & _ & _ & H2).
  - simpl. lia.
  - reflexivity.
  - exists r'. split; [exact H1|exact H2].
Defined.

(** * Further properties of the execution coordinator *)

Section Coordinator.

Import Executor.

Lemma sees_write_fields ex cfg pc :
  is_running (sees_write ex cfg pc) = is_running ex
  ∧ execution_id (sees_write ex cfg pc) = execution_id ex
  ∧ process (sees_write ex cfg pc) = process ex
  ∧ metrics (sees_write ex cfg pc) = metrics ex.
Proof.
  unfold sees_write. destruct (headers cfg); [|done]. by destruct (decide _).
Qed.

Lemma run_python_test_executor ex cfg env ex' o :
  _run_python_test ex cfg env = Some (ex', o) →
  ex' = ex
  ∨ ∃ url, target_url cfg = Some url
           ∧ ex' = sees_write ex cfg (LoadTestConfig_of cfg url).
Proof.
  unfold _run_python_test.
  destruct (target_url cfg) as [url|]; [|intros [= <- _]; by left].
  destruct (Runner.run_test _ _) as [[r [m|e]]|]; [| |done].
  - destruct (Runner.generate_report r); intros [= <- _]; right; by exists url.
  - intros [= <- _]. right. by exists url.
Qed.


Lemma run_k6_test_executor ex cfg env ex' o :
  _run_k6_test ex cfg env = Some (ex', o) →
  ex' = ex ∨ ∃ p, ex' = set_process ex p.
Proof.
  unfold _run_k6_test. destruct (negb _); [intros [= <- _]; by left|].
  destruct (target_url cfg); [|intros [= <- _]; by left].
  destruct (popen env) as [c|e].
  - destruct (communicate _ _) as [[[[p rc] so] se]|].
    + destruct (rc =? 0); intros [= <- _]; right; eauto.
    + destruct (wait _) as [p|]; [|done]. intros [= <- _]. right. eauto.
  - destruct (is_Exception e); intros [= <- _]; by left.
Qed.

Lemma run_test_raises_base r env r' e :
  Runner.run_test r env = Some (r', Raise e) → is_Exception e = false.
Proof.
  unfold Runner.run_test. destruct (Runner.interrupt env) as [e0|].
  - destruct (is_Exception e0) eqn:H; [done|]. by intros [= _ <-].
  - by destruct (forallb _ _).
Qed.

Lemma execute_test_leaves ex cfg env ex' o :
  execute_test ex cfg env = Some (ex', o) →
  is_running ex' = false
  ∧ execution_id ex' = execution_id ex
  ∧ (process ex' = process ex ∨ uses_python_runner cfg = false)
  ∧ ∀ e, o = Raise e → is_Exception e = false.
Proof.
  unfold execute_test.
  destruct (uses_python_runner cfg) eqn:Hpy.
  - destruct (_run_python_test _ _ _) as [[ex2 o2]|] eqn:H; [|done].
    apply run_python_test_executor in H as [->|(url & _ & ->)];
      [|destruct (sees_write_fields (set_is_running ex true) cfg
                    (LoadTestConfig_of cfg url)) as (_ & Hid & Hp & _)];
      (destruct o2 as [x|e]; [|destruct (is_Exception e) eqn:He];
       intros [= <- <-]; repeat split; auto; try done;
       by intros e' [= <-]).
  - destruct (_run_k6_test _ _ _) as [[ex2 o2]|] eqn:H; [|done].
    apply run_k6_test_executor in H as [->|[p ->]];
      (destruct o2 as [x|e]; [|destruct (is_Exception e) eqn:He];
       intros [= <- <-]; repeat split; auto; try done;
       by intros e' [= <-]).
Qed.



End Coordinator.



(** X11. The in-process backend never reports a failure of the test. For
    a configuration that selects the Python runner and has a target, every
    dictionary that [execute_test] returns is the success dictionary of
    [_run_python_test], its counters satisfy the invariant of the totals,
    its report is "No metrics collected" exactly when no request was
    counted (every user may have failed), and the executor is left not
    running, with the identifier and the process entry it had. *)
Theorem python_backend_reports_success (ex : Executor.TestExecutor)
    (cfg : Executor.test_config) (env : Executor.exec_env) (url : string)
    (ex' : Executor.TestExecutor) (x : Executor.result) :
  Executor.uses_python_runner cfg = true →
  Executor.target_url cfg = Some url →
  Executor.execute_test ex cfg env = Some (ex', Return x) →
  Executor.is_running ex' = false
  ∧ Executor.execution_id ex' = Executor.execution_id ex
  ∧ Executor.process ex' = Executor.process ex
  ∧ Executor.success x = true
  ∧ ∃ rep total successful failed times,
      x = Executor.PythonSuccess (Executor.execution_id ex) rep total
            successful failed times
      ∧ total = successful + failed
      ∧ Z.of_nat (length times) = total
      ∧ (rep = ReportError "No metrics collected" ↔ total = 0).
Proof.
  intros Hpy Hurl H.
  destruct (execute_test_leaves _ _ _ _ _ H) as (Hrun & Hid & [Hp|Hp] & _);
    [|congruence].
  split; [done|]. split; [done|]. split; [done|].
  revert H. unfold Executor.execute_test, Executor._run_python_test.
  rewrite Hpy, Hurl.
  destruct (sees_write_fields (Executor.set_is_running ex true) cfg
              (Executor.LoadTestConfig_of cfg url)) as (_ & -> & _).
  destruct (run_test _ _) as [[r' [m|e]]|] eqn:Hrun'; [| |done].
  - destruct (run_test_preserves tallied _ _ _ _ make_request_tallied
                set_start_time_tallied set_end_time_tallied
                (or_intror add_error_tallied) (new_LoadRunner_tallied _) Hrun')
      as [-> (Hc & _ & _ & Hl)].
    pose proof (generate_report_shape r') as Hshape.
    destruct (response_times (metrics r')) as [|t ts] eqn:Hts.
    + rewrite Hshape. intros [= _ <-]. split; [done|].
      eexists _, _, _, _, _. split; [reflexivity|].
      simpl in *. split; [exact Hc|]. split; [exact Hl|]. done.
    + destruct Hshape as (rep & -> & _). intros [= _ <-].
      split; [done|].
      eexists _, _, _, _, _. split; [reflexivity|].
      simpl in *. split; [exact Hc|]. split; [exact Hl|].
      split; [done|lia].
  - rewrite (run_test_raises_base _ _ _ _ Hrun'). done.
Qed.

Lemma python_backend_reports_success_witness :
  ∃ ex' x,
    Executor.execute_test (Executor.new_TestExecutor token_test_config "id-1")
      token_test_config (Executor.mkExecEnv hanging_k6 demo_env)
    = Some (ex', Return x)
    ∧ Executor.success x = true.
Proof.
  destruct (Executor.execute_test
              (Executor.new_TestExecutor token_test_config "id-1") token_test_config
              (Executor.mkExecEnv hanging_k6 demo_env)) as [[ex' [x|e]]|] eqn:H;
    [|vm_compute in H; discriminate..].
  exists ex', x. split; [reflexivity|].
  exact (proj1 (proj2 (proj2 (proj2 (python_backend_reports_success
                         (Executor.new_TestExecutor token_test_config "id-1")
                         token_test_config (Executor.mkExecEnv hanging_k6 demo_env)
                         "http://x/health" ex' x eq_refl eq_refl H))))).
Defined.

(** X12. A k6 that exits within the timeout is never signalled. Its
    process is reaped with its own return code; the result is the success
    dictionary exactly when that code is 0, with whatever the two result
    files gave and the standard output; otherwise it is the failure
    dictionary with the code in the message and the standard error. *)
Theorem k6_exit_in_time (ex : Executor.TestExecutor) (cfg : Executor.test_config)
    (env : Executor.k6_env) (url : string) (c : Executor.child) (d : Q) :
  script_available cfg env = true →
  Executor.target_url cfg = Some url →
  Executor.popen env = Return c →
  Executor.lifetime c = Some d →
  (d <= Executor.effective_timeout cfg)%Q →
  let p := Executor.mkPopen c (Some (Executor.exit_code c)) [] in
  let x :=
    if Executor.exit_code c =? 0
    then Executor.K6Success (Executor.execution_id ex)
           (Executor._parse_k6_results (Executor.summary_json env)
              (Executor.results_json env))
           (Executor.out c) (Executor.duration cfg)
    else Executor.K6Failure (Executor.execution_id ex)
           ("k6 failed with return code " +:+ pretty (Executor.exit_code c))
           (Executor.err c) in
  Executor._run_k6_test ex cfg env = Some (Executor.set_process ex p, Return x)
  ∧ (Executor.success x = true ↔ Executor.exit_code c = 0).
Proof.
  intros Hscript Hurl Hpopen Hlife Hd p x. unfold script_available in Hscript.
  unfold Executor._run_k6_test. rewrite Hscript, Hurl, Hpopen. simpl negb. cbv iota.
  unfold Executor.communicate. simpl. rewrite Hlife.
  apply Qle_bool_iff in Hd. rewrite Hd. unfold x.
  destruct (Z.eqb_spec (Executor.exit_code c) 0); split; try done.
Qed.

Lemma k6_exit_in_time_witness :
  let env := Executor.mkK6Env (λ _, true)
               (Return (Executor.mkChild (Some (30 # 1)) 3 "" "threshold crossed" true))
               Executor.Absent Executor.Absent in
  Executor._run_k6_test (Executor.new_TestExecutor k6_test_config "id-2")
    k6_test_config env
  = Some (Executor.set_process (Executor.new_TestExecutor k6_test_config "id-2")
            (Executor.mkPopen
               (Executor.mkChild (Some (30 # 1)) 3 "" "threshold crossed" true)
               (Some 3) []),
          Return (Executor.K6Failure "id-2" "k6 failed with return code 3"
                    "threshold crossed")).
Proof.
  intros env.
  refine (proj1 (k6_exit_in_time (Executor.new_TestExecutor k6_test_config "id-2")
                   k6_test_config env "http://x/health"
                   (Executor.mkChild (Some (30 # 1)) 3 "" "threshold crossed" true)
                   (30 # 1) _ _ _ _ _)); try reflexivity.
  vm_compute. discriminate.
Defined.

(** X13. Failures before k6 runs are results, not exceptions. On the k6
    path, a profile without a script or a script that is not on disk gives
    the failure "k6 script not found for profile: ..."; a missing target
    gives the failure of the [KeyError]; a [Popen] that raises gives "k6
    execution failed: ...". In all three cases no process is recorded and
    the executor is left not running. *)
Theorem k6_launch_failures (ex : Executor.TestExecutor)
    (cfg : Executor.test_config) (env : Executor.exec_env) :
  Executor.uses_python_runner cfg = false →
  let failure msg :=
    Executor.execute_test ex cfg env
    = Some (Executor.set_is_running ex false,
            Return (Executor.ExecFailure (Executor.execution_id ex) msg)) in
  (script_available cfg (Executor.k6 env) = false →
   failure ("k6 script not found for profile: "
            +:+ default "steady_state" (Executor.load_profile_type cfg)))
  ∧ (script_available cfg (Executor.k6 env) = true →
     Executor.target_url cfg = None →
     failure "'target_url'")
  ∧ (∀ url e,
       script_available cfg (Executor.k6 env) = true →
       Executor.target_url cfg = Some url →
       Executor.popen (Executor.k6 env) = Raise e →
       is_Exception e = true →
       failure ("k6 execution failed: " +:+ str_exn e)).
Proof.
  intros Hk6 failure. unfold failure, Executor.execute_test, Executor._run_k6_test.
  rewrite Hk6. unfold script_available. repeat split.
  - intros ->. done.
  - intros -> ->. done.
  - intros url e -> -> -> He. simpl. rewrite He. done.
Qed.

Lemma k6_launch_failures_witness :
  Executor.execute_test (Executor.new_TestExecutor k6_test_config "id-2")
    k6_test_config cancelled_env
  = Some (Executor.set_is_running
            (Executor.new_TestExecutor k6_test_config "id-2") false,
          Return (Executor.ExecFailure "id-2"
                    "k6 script not found for profile: steady_state")).
Proof.
  exact (proj1 (k6_launch_failures (Executor.new_TestExecutor k6_test_config "id-2")
                  k6_test_config cancelled_env eq_refl) eq_refl).
Defined.

Section ResultFiles.

Import K6.

Lemma parse_lines_spec ls :
  parse_lines ls = if has_bad_line ls then None else Some (json_lines ls).
Proof.
  induction ls as [|[|v|] ls IH]; simpl; try done.
  rewrite IH. unfold json_lines. by destruct (has_bad_line ls).
Qed.

End ResultFiles.

(** X14. The detail stream is read all or nothing, and apart from the
    summary. [detailed_metrics] is present exactly when [results.json]
    exists and [json.loads] accepts every non-blank line; it then holds
    those lines in order, blank lines skipped. One rejected line drops the
    whole section, never the summary, and a bad summary never drops the
    detail. *)
Theorem detail_stream_all_or_nothing (summary : Executor.file_state string)
    (file : option (list K6.line)) :
  let results := Executor._parse_k6_results summary (K6.read_results_json file) in
  Executor.detailed_metrics results
  = match file with
    | Some ls => if has_bad_line ls then None else Some (json_lines ls)
    | None => None
    end
  ∧ Executor.summary results
    = match summary with
      | Executor.Parsed v => Some v
      | _ => None
      end.
Proof.
  split; [|done]. destruct file as [ls|]; [|done]. simpl.
  rewrite parse_lines_spec. by destruct (has_bad_line ls).
Qed.

Section Abort.

Import Executor.





End Abort.



(** * Further properties of the registry *)

(** X16. [TestExecutionManager.abort_test] on a tracked execution hands
    the abort to its executor, returns the executor's answer and removes the
    handle whatever that answer is, also when the executor reports a
    failure; no other handle is touched. A second abort of the same
    identifier is answered "Test execution not found" and changes nothing. *)
Theorem manager_abort_removes_handle (mgr : Manager.TestExecutionManager)
    (id : string) (executor : Executor.TestExecutor)
    (os_error : option string) :
  Manager.active_tests mgr !! id = Some executor →
  ∃ mgr' executor' x,
    Executor.abort_test executor os_error = Some (executor', x)
    ∧ Manager.abort_test mgr id os_error = Some (mgr', x)
    ∧ Manager.active_tests mgr' = delete id (Manager.active_tests mgr)
    ∧ S (size (Manager.active_tests mgr')) = size (Manager.active_tests mgr)
    ∧ Manager.max_concurrent_tests mgr' = Manager.max_concurrent_tests mgr
    ∧ ∀ os_error',
        Manager.abort_test mgr' id os_error'
        = Some (mgr', Executor.PlainFailure "Test execution not found").
Proof.
  intros Hid.
  destruct (abort_test_returns executor os_error) as (executor' & x & Hab).
  exists (Manager.set_active_tests mgr (delete id (Manager.active_tests mgr))),
    executor', x.
  split; [exact Hab|]. unfold Manager.abort_test. rewrite Hid, Hab. simpl.
  split; [done|]. split; [done|]. split.
  - rewrite map_size_delete, Hid. simpl.
    assert (size (Manager.active_tests mgr) ≠ 0%nat); [|lia].
    intros H0. apply map_size_empty_inv in H0. rewrite H0 in Hid.
    by rewrite lookup_empty in Hid.
  - split; [done|]. intros os_error'. by rewrite lookup_delete_eq.
Qed.

Lemma manager_abort_removes_handle_witness :
  ∃ mgr',
    Manager.abort_test full_manager "c" None
    = Some (mgr', Executor.PlainFailure "No process to abort")
    ∧ size (Manager.active_tests mgr') = 4%nat
    ∧ Manager.abort_test mgr' "c" None
      = Some (mgr', Executor.PlainFailure "Test execution not found").
Proof.
  destruct (manager_abort_removes_handle full_manager "c"
              (Executor.set_is_running
                 (Executor.new_TestExecutor demo_test_config "c") true) None)
    as (mgr' & ex' & x & Hab & H1 & _ & Hsize & _ & H2).
  - vm_compute. reflexivity.
  - exists mgr'. injection Hab as _ <-.
    split; [exact H1|]. split; [|exact (H2 None)].
    assert (size (Manager.active_tests full_manager) = 5%nat) as Hfull
      by (vm_compute; reflexivity).
    rewrite Hfull in Hsize. by injection Hsize.
Defined.

Section Limit.

Import Executor Manager.

Lemma size_insert_le (a : gmap string TestExecutor) id ex :
  (size (<[id := ex]> a) ≤ S (size a))%nat.
Proof. rewrite map_size_insert. destruct (a !! id); simpl; lia. Qed.

Lemma size_delete_le (a : gmap string TestExecutor) id :
  (size (delete id a) ≤ size a)%nat.
Proof. rewrite map_size_delete. destruct (a !! id); simpl; lia. Qed.

Lemma start_test_registry mgr cfg uuid env mgr' o :
  start_test mgr cfg uuid env = Some (mgr', o) →
  max_concurrent_tests mgr' = max_concurrent_tests mgr
  ∧ (active_tests mgr' = active_tests mgr
     ∨ (size (active_tests mgr) < max_concurrent_tests mgr)%nat
       ∧ (active_tests mgr' = delete uuid (active_tests mgr)
          ∨ ∃ ex', active_tests mgr' = <[uuid := ex']> (active_tests mgr))).
Proof.
  unfold start_test.
  destruct (Nat.leb_spec (max_concurrent_tests mgr) (size (active_tests mgr))).
  { intros [= <- _]. split; [done|]. by left. }
  destruct (execute_test _ _ _) as [[ex' [x|e]]|]; [| |done].
  - intros [= <- _]. split; [done|]. right. split; [done|]. left. simpl.
    by rewrite clean_up_delete, delete_insert_eq.
  - destruct (is_Exception e); intros [= <- _]; (split; [done|]);
      right; (split; [done|]); simpl.
    + left. by rewrite clean_up_delete, delete_insert_eq.
    + right. exists ex'. by rewrite insert_insert_eq.
Qed.

End Limit.

(** X17. The registry stays within its limit and [start_test] minds its
    own handle only. From a registry that holds at most
    [max_concurrent_tests] executions, [start_test], on every way it can
    end, leaves a registry that holds at most that many, with the limit
    unchanged and the handle of every other identifier as it was. *)
Theorem start_test_keeps_limit (mgr : Manager.TestExecutionManager)
    (cfg : Executor.test_config) (uuid : string) (env : Executor.exec_env)
    (mgr' : Manager.TestExecutionManager) (o : outcome Executor.result) :
  (size (Manager.active_tests mgr) ≤ Manager.max_concurrent_tests mgr)%nat →
  Manager.start_test mgr cfg uuid env = Some (mgr', o) →
  (size (Manager.active_tests mgr') ≤ Manager.max_concurrent_tests mgr')%nat
  ∧ Manager.max_concurrent_tests mgr' = Manager.max_concurrent_tests mgr
  ∧ ∀ id, id ≠ uuid →
      Manager.active_tests mgr' !! id = Manager.active_tests mgr !! id.
Proof.
  intros Hsize H. apply start_test_registry in H as [Hmax H]. rewrite Hmax.
  destruct H as [->|[Hlt [->|[ex' ->]]]].
  - done.
  - split; [|split; [done|]].
    + pose proof (size_delete_le (Manager.active_tests mgr) uuid). lia.
    + intros id Hne. by rewrite lookup_delete_ne.
  - split; [|split; [done|]].
    + pose proof (size_insert_le (Manager.active_tests mgr) uuid ex'). lia.
    + intros id Hne. by rewrite lookup_insert_ne.
Qed.

Lemma start_test_keeps_limit_witness :
  ∃ mgr',
    Manager.start_test Manager.new_TestExecutionManager demo_test_config "id-1"
      cancelled_env = Some (mgr', Raise CancelledError)
    ∧ (size (Manager.active_tests mgr') ≤ 5)%nat.
Proof.
  destruct (Manager.start_test Manager.new_TestExecutionManager demo_test_config
              "id-1" cancelled_env) as [[mgr' [x|[]]]|] eqn:H;
    try (vm_compute in H; discriminate).
  exists mgr'. split; [reflexivity|].
  destruct (start_test_keeps_limit Manager.new_TestExecutionManager
              demo_test_config "id-1" cancelled_env mgr' (Raise CancelledError))
    as (H1 & H2 & _).
  - vm_compute. lia.
  - exact H.
  - rewrite H2 in H1. exact H1.
Defined.

(** * Further properties of the method validator and of the k6 environment *)

Section Methods.

Lemma upper_ascii_idem c : upper_ascii (upper_ascii c) = upper_ascii c.
Proof. destruct c as [[] [] [] [] [] [] [] []]; reflexivity. Qed.

Lemma upper_idem s : upper (upper s) = upper s.
Proof.
  induction s as [|c s IH]; [done|]. simpl. by rewrite upper_ascii_idem, IH.
Qed.

Lemma validate_method_accepts v u :
  Schemas.validate_method v = Return u →
  u = upper v ∧ In u Schemas.allowed_methods.
Proof.
  unfold Schemas.validate_method.
  destruct (existsb _ _) eqn:H; [|done]. intros [= <-]. split; [done|].
  apply existsb_exists in H as (m & Hin & Heq).
  apply String.eqb_eq in Heq. by rewrite Heq.
Qed.

End Methods.

(** X18. [validate_method] accepts a method whatever its letter case and
    returns it in upper case: an accepted result is one of the seven names
    of the list, and validating it again returns it unchanged. *)
Theorem validate_method_normalises (v u : string) :
  Schemas.validate_method v = Return u →
  u = upper v
  ∧ In u Schemas.allowed_methods
  ∧ Schemas.validate_method u = Return u
  ∧ Schemas.validate_method (upper v) = Schemas.validate_method v.
Proof.
  intros H. destruct (validate_method_accepts v u H) as [-> Hin].
  assert (Hup : Schemas.validate_method (upper v) = Schemas.validate_method v).
  { unfold Schemas.validate_method. by rewrite upper_idem. }
  split; [done|]. split; [done|]. split; [|done]. by rewrite Hup.
Qed.

Lemma validate_method_normalises_witness :
  Schemas.validate_method "Patch" = Return "PATCH"
  ∧ Schemas.validate_method "PATCH" = Return "PATCH".
Proof.
  destruct (validate_method_normalises "Patch" "PATCH" eq_refl)
    as (_ & _ & H & _).
  split; [reflexivity|exact H].
Defined.

(** X19. Of the methods that the validator accepts, all but HEAD and
    OPTIONS reach a verb of [make_request], in the case the caller wrote
    them and in the upper case the validator returns. *)
Theorem validated_methods_dispatch (v u : string) :
  Schemas.validate_method v = Return u →
  u ≠ "HEAD" → u ≠ "OPTIONS" →
  ∃ verb, dispatch v = Some verb ∧ dispatch u = Some verb.
Proof.
  intros H Hhead Hoptions.
  destruct (validate_method_accepts v u H) as [-> Hin].
  assert (Hd : dispatch (upper v) = dispatch v).
  { unfold dispatch. by rewrite upper_idem. }
  rewrite Hd. unfold dispatch.
  simpl in Hin.
  destruct Hin as [<-|[<-|[<-|[<-|[<-|[Hin|[Hin|[]]]]]]]].
  - exists GET. split; reflexivity.
  - exists POST. split; reflexivity.
  - exists PUT. split; reflexivity.
  - exists DELETE. split; reflexivity.
  - exists PATCH. split; reflexivity.
  - by destruct Hhead.
  - by destruct Hoptions.
Qed.

Lemma validated_methods_dispatch_witness :
  dispatch "delete" = Some DELETE ∧ dispatch "DELETE" = Some DELETE.
Proof.
  destruct (validated_methods_dispatch "delete" "DELETE" eq_refl)
    as (verb & H1 & H2); [discriminate..|].
  split; [reflexivity|reflexivity].
Defined.

Section PrepareEnv.

Import Executor K6.

Variable json_dumps : gmap string string → string.

Lemma prepare_env_keys cfg pc url :
  target_url cfg = Some url →
  pc ≠ StoredNone ∨ reads_profile_config (load_profile_type cfg) = false →
  ∃ env_vars,
    _prepare_k6_env json_dumps cfg pc = Return env_vars
    ∧ dom env_vars = base_keys ∪ profile_keys (load_profile_type cfg)
    ∧ env_vars !! "TARGET_URL" = Some url.
Proof.
  intros Hurl Hpc. unfold _prepare_k6_env. rewrite Hurl.
  unfold profile_keys, base_keys, reads_profile_config in *.
  destruct (load_profile_type cfg) as [t|].
  - destruct (String.eqb t "ramp_up"); [|destruct (String.eqb t "spike");
      [|destruct (String.eqb t "soak")]];
      try (destruct pc as [| |pc]; [|by destruct Hpc|]);
      (eexists; split; [reflexivity|];
       split; [unfold update; simpl; rewrite !dom_insert_L, dom_empty_L; set_solver
              |reflexivity]).
  - eexists. split; [reflexivity|].
    split; [unfold update; simpl; rewrite !dom_insert_L, dom_empty_L; set_solver
           |reflexivity].
Qed.

Lemma prepare_env_none cfg url :
  target_url cfg = Some url →
  reads_profile_config (load_profile_type cfg) = true →
  _prepare_k6_env json_dumps cfg StoredNone
  = Raise (OtherException "'NoneType' object has no attribute 'get'").
Proof.
  intros Hurl Hp. unfold _prepare_k6_env. rewrite Hurl.
  unfold reads_profile_config in Hp.
  destruct (load_profile_type cfg) as [t|]; [|done].
  destruct (String.eqb t "ramp_up"); [done|].
  destruct (String.eqb t "spike"); [done|].
  by destruct (String.eqb t "soak").
Qed.

End PrepareEnv.

(** X20. The environment of the k6 script. [_prepare_k6_env] raises the
    [KeyError] when ["target_url"] is missing. With a target, and with
    [None] stored under ["load_profile_config"], a ramp-up, spike or soak
    run raises the [AttributeError] of [None.get]. In every other case the
    variables it sets are the seven common ones together with those of the
    configured profile and no others: a ramp-up run gets no spike or soak
    variable, a steady-state or unknown profile gets none of them; this
    does not depend on which dictionary [load_profile_config] holds, nor on
    its being there. *)
Theorem prepare_k6_env_keys (json_dumps : gmap string string → string)
    (cfg : Executor.test_config) (pc : K6.stored (gmap string K6.value)) :
  match Executor.target_url cfg, pc with
  | None, _ =>
      K6._prepare_k6_env json_dumps cfg pc = Raise (OtherException "'target_url'")
  | Some url, K6.StoredNone =>
      if reads_profile_config (Executor.load_profile_type cfg)
      then K6._prepare_k6_env json_dumps cfg pc
           = Raise (OtherException "'NoneType' object has no attribute 'get'")
      else ∃ env_vars,
             K6._prepare_k6_env json_dumps cfg pc = Return env_vars
             ∧ dom env_vars = base_keys
             ∧ env_vars !! "TARGET_URL" = Some url
  | Some url, _ =>
      ∃ env_vars,
        K6._prepare_k6_env json_dumps cfg pc = Return env_vars
        ∧ dom env_vars
          = base_keys ∪ profile_keys (Executor.load_profile_type cfg)
        ∧ env_vars !! "TARGET_URL" = Some url
  end.
Proof.
  destruct (Executor.target_url cfg) as [url|] eqn:Hurl.
  - destruct pc as [| |pc]; try (apply prepare_env_keys; [done|by left]).
    destruct (reads_profile_config _) eqn:Hp;
      [by apply (prepare_env_none json_dumps cfg url)|].
    destruct (prepare_env_keys json_dumps cfg K6.StoredNone url Hurl
                (or_intror Hp)) as (env_vars & H1 & H2 & H3).
    exists env_vars. split; [done|]. split; [|done]. rewrite H2.
    unfold reads_profile_config, profile_keys in *.
    destruct (Executor.load_profile_type cfg) as [t|]; [|set_solver].
    destruct (String.eqb t "ramp_up"); [done|].
    destruct (String.eqb t "spike"); [done|].
    destruct (String.eqb t "soak"); [done|]. set_solver.
  - unfold K6._prepare_k6_env. by rewrite Hurl.
Qed.
